(** * spacehouse: parametric building configurator

    A shallow embedding of the material calculator and the code validator of
    [src/parametric_building_configurator.py] and [src/api.py].

    Python [float] is IEEE 754 binary64; it is modelled by [spec_float] with
    [prec = 53] and [emax = 1024], so rounding, overflow to infinity and NaN
    are those of the running program.  Python [int] is [Z].  Exceptions are
    the [Raise] results of a small error monad. *)

From Stdlib Require Import ZArith QArith Qround Bool List String Ascii Lia.
From Stdlib Require Import Floats.SpecFloat.
From Stdlib Require Import Permutation.
Import ListNotations.

Open Scope Z_scope.
Open Scope string_scope.

(** ** Exceptions *)

Inductive PyExc : Type :=
| OverflowError
| ValueError.

Inductive result (A : Type) : Type :=
| Ok (a : A)
| Raise (e : PyExc).

Arguments Ok {A} a.
Arguments Raise {A} e.

Definition bind {A B : Type} (c : result A) (k : A -> result B) : result B :=
  match c with
  | Ok a => k a
  | Raise e => Raise e
  end.

Notation "x <- c ;; k" := (bind c (fun x => k))
  (at level 61, c at next level, right associativity).

(** [mapM f l]: the results of [f] along [l], left to right, up to the first
    exception. *)
Fixpoint mapM {A B : Type} (f : A -> result B) (l : list A) : result (list B) :=
  match l with
  | [] => Ok []
  | a :: l' => b <- f a ;; bs <- mapM f l' ;; Ok (b :: bs)
  end.

(** ** Python numbers *)

Module Py.

Definition prec : Z := 53.
Definition emax : Z := 1024.

Definition float : Type := spec_float.

Definition fadd : float -> float -> float := SFadd prec emax.
Definition fsub : float -> float -> float := SFsub prec emax.
Definition fmul : float -> float -> float := SFmul prec emax.
Definition fdiv : float -> float -> float := SFdiv prec emax.

(** [x < y], [x <= y] and [x >= y] on floats: false as soon as one side is
    NaN. *)
Definition flt (x y : float) : bool := SFltb x y.
Definition fle (x y : float) : bool := SFleb x y.
Definition fge (x y : float) : bool := SFleb y x.
Definition fgt (x y : float) : bool := SFltb y x.

Definition is_nan (x : float) : bool :=
  match x with S754_nan => true | _ => false end.

Definition is_finite (x : float) : bool :=
  match x with S754_zero _ | S754_finite _ _ _ => true | _ => false end.

(** The largest integer whose conversion to float does not overflow is just
    below [2^1024 - 2^970], the midpoint between the largest double and
    [2^1024]. *)
Definition float_overflow_threshold : Z := 2 ^ 1024 - 2 ^ 970.

(** [float(n)] for an integer operand of a mixed operation: correctly
    rounded, [OverflowError] when the rounded value is out of range. *)
Definition float_of_int (n : Z) : result float :=
  if (Z.abs n <? float_overflow_threshold)%Z
  then Ok (binary_normalize prec emax n 0 false)
  else Raise OverflowError.

(** The double nearest to the integer [n], ties to even: exact up to
    [2^53], hence for every integer literal of the program. *)
Definition flit (n : Z) : float := binary_normalize prec emax n 0 false.

(** A decimal literal [n/d]: the double nearest to the quotient (IEEE
    division of two exactly represented integers is correctly rounded). *)
Definition fdec (n d : Z) : float := fdiv (flit n) (flit d).

(** [int(x)]: truncation toward zero; infinities and NaN raise. *)
Definition int_of_float (x : float) : result Z :=
  match x with
  | S754_nan => Raise ValueError
  | S754_infinity _ => Raise OverflowError
  | S754_zero _ => Ok 0
  | S754_finite s m e => Ok (cond_Zopp s (Z.shiftl (Zpos m) e))
  end.

(** The exact value of a finite float, as a rational (0 for the others). *)
Definition to_Q (x : float) : Q :=
  match x with
  | S754_finite s m e =>
      match e with
      | Zneg p => Qmake (cond_Zopp s (Zpos m)) (2 ^ p)%positive
      | _ => inject_Z (cond_Zopp s (Zpos m) * 2 ^ e)
      end
  | _ => 0%Q
  end.

(** Numbers held by the material dictionaries: [int] or [float]. *)
Inductive num : Type :=
| Int (n : Z)
| Float (x : float).

(** [a + b] on numbers; an integer operand meeting a float is converted. *)
Definition add (a b : num) : result num :=
  match a, b with
  | Int m, Int n => Ok (Int (m + n))
  | Int m, Float y => x <- float_of_int m ;; Ok (Float (fadd x y))
  | Float x, Int n => y <- float_of_int n ;; Ok (Float (fadd x y))
  | Float x, Float y => Ok (Float (fadd x y))
  end.

(** [n * x] with an integer [n]: [n] is converted first. *)
Definition mul_int_float (n : Z) (x : float) : result float :=
  f <- float_of_int n ;; Ok (fmul f x).

(** [sum(xs)] over floats starts from the integer 0, which the first addition
    converts to [0.0]. *)
Definition fzero : float := S754_zero false.

Definition fsum (xs : list float) : float := fold_left fadd xs fzero.

(** [max(xs)]: the first element, replaced by each later element that
    compares greater; [ValueError] on an empty sequence. *)
Definition max (xs : list float) : result float :=
  match xs with
  | [] => Raise ValueError
  | x :: rest => Ok (fold_left (fun cur y => if fgt y cur then y else cur) rest x)
  end.

(** *** Text of numbers *)

Definition digit_char (d : Z) : ascii := ascii_of_N (48 + Z.to_N d).

Fixpoint dec_digits (fuel : nat) (n : Z) (acc : string) : string :=
  match fuel with
  | O => acc
  | S fuel' =>
      let acc' := String (digit_char (n mod 10)) acc in
      if (n / 10 =? 0)%Z then acc' else dec_digits fuel' (n / 10) acc'
  end.

(** [str(n)] for a non-negative integer. *)
Definition dec_of_nonneg (n : Z) : string :=
  dec_digits (S (Z.to_nat (Z.log2 n))) n "".

(** [str(n)] for an integer. *)
Definition str_of_int (n : Z) : string :=
  if (n <? 0)%Z then "-" ++ dec_of_nonneg (- n) else dec_of_nonneg n.

Fixpoint zeros (n : nat) : string :=
  match n with
  | O => ""
  | S n' => String "0" (zeros n')
  end.

(** [s.rjust(w, "0")] *)
Definition pad_zeros (w : nat) (s : string) : string :=
  zeros (w - String.length s) ++ s.

(** The integer nearest to [num/den] ([den > 0]), ties to even. *)
Definition round_half_even (num den : Z) : Z :=
  let q := num / den in
  let r := num mod den in
  match (2 * r ?= den)%Z with
  | Lt => q
  | Gt => q + 1
  | Eq => if Z.even q then q else q + 1
  end.

Definition sign_text (s : bool) : string := if s then "-" else "".

(** [format(x, ".kf")] for [k >= 1]: the exact binary value rounded to [k]
    decimals, ties to even. *)
Definition format_fixed (k : nat) (x : float) : string :=
  match x with
  | S754_nan => "nan"
  | S754_infinity s => sign_text s ++ "inf"
  | S754_zero s => sign_text s ++ "0." ++ zeros k
  | S754_finite s m e =>
      let p := 10 ^ Z.of_nat k in
      let n := match e with
               | Zneg d => round_half_even (Zpos m * p) (Zpos (2 ^ d))
               | _ => Zpos m * p * 2 ^ e
               end in
      sign_text s ++ dec_of_nonneg (n / p) ++ "." ++
      pad_zeros k (dec_of_nonneg (n mod p))
  end.

(** *** [repr] of a float: the shortest decimal that reads back as the same
    double, the nearest one among the shortest. *)

Definition qpow10 (k : Z) : Q :=
  match k with
  | Zneg p => Qmake 1 (10 ^ p)%positive
  | _ => inject_Z (10 ^ k)
  end.

Definition qpow2 (k : Z) : Q :=
  match k with
  | Zneg p => Qmake 1 (2 ^ p)%positive
  | _ => inject_Z (2 ^ k)
  end.

(** [floor (log10 v)] for the positive [v = m * 2^e]. *)
Definition ilog10 (m : positive) (e : Z) : Z :=
  let v := (inject_Z (Zpos m) * qpow2 e)%Q in
  let est := ((Z.log2 (Zpos m) + e) * 30103) / 100000 in
  if Qle_bool (qpow10 (est + 2)) v then est + 2
  else if Qle_bool (qpow10 (est + 1)) v then est + 1
  else if Qle_bool (qpow10 est) v then est
  else if Qle_bool (qpow10 (est - 1)) v then est - 1
  else est - 2.

Definition qlt_bool (a b : Q) : bool := negb (Qle_bool b a).

(** The decimals that read back as [m * 2^e] lie between the midpoints to
    the neighbouring doubles; the midpoints themselves read back as it when
    [m] is even. *)
Definition reads_back (m : positive) (e : Z) (c : Q) : bool :=
  let v := (inject_Z (Zpos m) * qpow2 e)%Q in
  let below := if (Pos.eqb m (2 ^ 52)) && (-1074 <? e)%Z
               then qpow2 (e - 2) else qpow2 (e - 1) in
  let lo := (v - below)%Q in
  let hi := (v + qpow2 (e - 1))%Q in
  if Z.even (Zpos m) then Qle_bool lo c && Qle_bool c hi
  else qlt_bool lo c && qlt_bool c hi.

(** The [n]-digit candidate for [m * 2^e], if one reads back: [(c, x)] stands
    for [c * 10^x]. *)
Definition candidate (m : positive) (e : Z) (k : Z) (n : Z) : option (Z * Z) :=
  let v := (inject_Z (Zpos m) * qpow2 e)%Q in
  let x := k - n + 1 in
  let cl := Qfloor (v / qpow10 x) in
  let ch := cl + 1 in
  let vl := (inject_Z cl * qpow10 x)%Q in
  let vh := (inject_Z ch * qpow10 x)%Q in
  match reads_back m e vl, reads_back m e vh with
  | true, true =>
      match Qcompare (v - vl) (vh - v) with
      | Lt => Some (cl, x)
      | Gt => Some (ch, x)
      | Eq => Some (if Z.even cl then cl else ch, x)
      end
  | true, false => Some (cl, x)
  | false, true => Some (ch, x)
  | false, false => None
  end.

Fixpoint shortest_from (fuel : nat) (m : positive) (e : Z) (k : Z) (n : Z)
  : Z * Z :=
  match fuel with
  | O => (Qfloor (inject_Z (Zpos m) * qpow2 e / qpow10 (k - n + 1)), k - n + 1)
  | S fuel' =>
      match candidate m e k n with
      | Some cx => cx
      | None => shortest_from fuel' m e k (n + 1)
      end
  end.

Fixpoint strip_zeros (fuel : nat) (c x : Z) : Z * Z :=
  match fuel with
  | O => (c, x)
  | S fuel' =>
      if (c mod 10 =? 0)%Z && (0 <? c)%Z
      then strip_zeros fuel' (c / 10) (x + 1)
      else (c, x)
  end.

(** The exponent of the scientific form: sign and at least two digits. *)
Definition exp_text (x : Z) : string :=
  (if (x <? 0)%Z then "-" else "+") ++ pad_zeros 2 (dec_of_nonneg (Z.abs x)).

(** Lay out the digits [ds] of [0.ds * 10^decpt] the way [repr] does. *)
Definition repr_layout (ds : string) (decpt : Z) : string :=
  let nd := Z.of_nat (String.length ds) in
  if (decpt <=? -4)%Z || (16 <? decpt)%Z then
    substring 0 1 ds ++
    (if (1 <? nd)%Z then "." ++ substring 1 (String.length ds - 1) ds else "") ++
    "e" ++ exp_text (decpt - 1)
  else if (decpt <=? 0)%Z then
    "0." ++ zeros (Z.to_nat (- decpt)) ++ ds
  else if (nd <=? decpt)%Z then
    ds ++ zeros (Z.to_nat (decpt - nd)) ++ ".0"
  else
    substring 0 (Z.to_nat decpt) ds ++ "." ++
    substring (Z.to_nat decpt) (String.length ds - Z.to_nat decpt) ds.

(** [repr(x)], which is also [str(x)] and what an f-string field without a
    format prints. *)
Definition repr (x : float) : string :=
  match x with
  | S754_nan => "nan"
  | S754_infinity s => sign_text s ++ "inf"
  | S754_zero s => sign_text s ++ "0.0"
  | S754_finite s m e =>
      let '(c0, x0) := shortest_from 17 m e (ilog10 m e) 1 in
      let '(c, x1) := strip_zeros 20 c0 x0 in
      let ds := dec_of_nonneg c in
      sign_text s ++ repr_layout ds (Z.of_nat (String.length ds) + x1)
  end.

End Py.

(** ** Enumerations *)

Inductive FramingType : Type :=
| STUD_2x4_16OC
| STUD_2x4_24OC
| STUD_2x6_16OC
| STUD_2x6_24OC.

Inductive RoomType : Type :=
| BEDROOM
| KITCHEN
| BATHROOM
| LIVING
| UTILITY.

Inductive ClimateZone : Type :=
| ZONE_1 | ZONE_2 | ZONE_3 | ZONE_4 | ZONE_5 | ZONE_6 | ZONE_7 | ZONE_8.

(** The [.value] of each member. *)
Definition FramingType_value (f : FramingType) : string :=
  match f with
  | STUD_2x4_16OC => "2x4 @ 16oc"
  | STUD_2x4_24OC => "2x4 @ 24oc"
  | STUD_2x6_16OC => "2x6 @ 16oc"
  | STUD_2x6_24OC => "2x6 @ 24oc"
  end.

Definition RoomType_value (r : RoomType) : string :=
  match r with
  | BEDROOM => "Bedroom"
  | KITCHEN => "Kitchen"
  | BATHROOM => "Bathroom"
  | LIVING => "Living Room"
  | UTILITY => "Utility"
  end.

Definition ClimateZone_value (z : ClimateZone) : Z :=
  match z with
  | ZONE_1 => 1 | ZONE_2 => 2 | ZONE_3 => 3 | ZONE_4 => 4
  | ZONE_5 => 5 | ZONE_6 => 6 | ZONE_7 => 7 | ZONE_8 => 8
  end.

Definition RoomType_eqb (a b : RoomType) : bool :=
  match a, b with
  | BEDROOM, BEDROOM | KITCHEN, KITCHEN | BATHROOM, BATHROOM
  | LIVING, LIVING | UTILITY, UTILITY => true
  | _, _ => false
  end.

Definition ClimateZone_eqb (a b : ClimateZone) : bool :=
  (ClimateZone_value a =? ClimateZone_value b)%Z.

(** [needle in hay] on strings. *)
Fixpoint contains (needle hay : string) : bool :=
  if prefix needle hay then true
  else match hay with
       | EmptyString => false
       | String _ hay' => contains needle hay'
       end.

(** ** The kit of parts

    The numeric fields are floats, as annotated in both files (the request
    models of [src/api.py] coerce them to float). *)

Record MaterialLayer : Type := {
  layer_name : string;
  thickness_inches : Py.float;
  r_value : Py.float
}.

Record Window : Type := {
  width_inches : Py.float;
  height_inches : Py.float;
  u_factor : Py.float;
  window_type : string
}.

Record Wall : Type := {
  length_feet : Py.float;
  height_feet : Py.float;
  framing_type : FramingType;
  is_exterior : bool;
  layers : list MaterialLayer;
  windows : list Window
}.

Record Room : Type := {
  room_type : RoomType;
  ceiling_height_feet : Py.float;
  walls : list Wall
}.

Record Project : Type := {
  project_name : string;
  location_zip : string;
  climate_zone : ClimateZone;
  rooms : list Room
}.

(** A code violation: [ValidationError] in the configurator,
    [ComplianceResult] in the API; the same four fields. *)
Record Finding : Type := {
  code : string;
  severity : string;
  message : string;
  component : option string
}.

(** ** Material dictionaries: keys in insertion order *)

Definition dict : Type := list (string * Py.num).

(** [d.get(k, default)] *)
Fixpoint dict_get (k : string) (d : dict) (default : Py.num) : Py.num :=
  match d with
  | [] => default
  | (k', v) :: d' => if String.eqb k k' then v else dict_get k d' default
  end.

(** [d[k] = v] *)
Fixpoint dict_set (k : string) (v : Py.num) (d : dict) : dict :=
  match d with
  | [] => [(k, v)]
  | (k', v') :: d' =>
      if String.eqb k k' then (k, v) :: d' else (k', v') :: dict_set k v d'
  end.

Definition keys (d : dict) : list string := map fst d.

(** The literal that starts every aggregation. *)
Definition zero_totals : dict :=
  [ ("studs_count", Py.Int 0);
    ("stud_linear_feet", Py.Int 0);
    ("top_plate_lf", Py.Int 0);
    ("bottom_plate_lf", Py.Int 0);
    ("sheathing_sqft", Py.Int 0);
    ("drywall_sqft", Py.Int 0);
    ("insulation_sqft", Py.Int 0);
    ("gravel_cubic_yards", Py.Int 0) ].

(** [for key in totals: totals[key] += part.get(key, 0)] *)
Definition add_into (totals part : dict) : result dict :=
  mapM (fun kv : string * Py.num =>
          v <- Py.add (snd kv) (dict_get (fst kv) part (Py.Int 0)) ;;
          Ok (fst kv, v))
       totals.

(** The aggregation loop over the children of a room or a project. *)
Fixpoint accumulate {A : Type} (f : A -> result dict) (children : list A)
  (totals : dict) : result dict :=
  match children with
  | [] => Ok totals
  | c :: rest =>
      part <- f c ;;
      totals' <- add_into totals part ;;
      accumulate f rest totals'
  end.

(** ** Derived properties, the same text in both files *)

Definition window_area_sqft (w : Window) : Py.float :=
  Py.fdiv (Py.fmul (width_inches w) (height_inches w)) (Py.flit 144).

Definition clear_opening_sqft (w : Window) : Py.float :=
  Py.fmul (window_area_sqft w) (Py.fdec 9 10).

Definition area_sqft (w : Wall) : Py.float :=
  Py.fmul (length_feet w) (height_feet w).

(** [sum] adds left to right in double precision (CPython up to 3.11). *)
Definition net_area_sqft (w : Wall) : Py.float :=
  let window_area := Py.fsum (map window_area_sqft (windows w)) in
  Py.fsub (area_sqft w) window_area.

Definition total_r_value (w : Wall) : Py.float :=
  Py.fsum (map r_value (layers w)).

Definition total_floor_area_sqft (r : Room) : Py.float :=
  match walls r with
  | w0 :: w1 :: _ => Py.fmul (length_feet w0) (length_feet w1)
  | _ => Py.fzero
  end.

Definition get_all_windows (r : Room) : list Window :=
  flat_map windows (walls r).

(** ** [src/parametric_building_configurator.py] *)

Module Configurator.

Definition stud_spacing_inches (w : Wall) : Z :=
  if contains "16oc" (FramingType_value (framing_type w)) then 16
  else if contains "24oc" (FramingType_value (framing_type w)) then 24
  else 16.

(** *** MaterialCalculator *)

Definition calculate_wall_materials (wall : Wall) : result dict :=
  let materials : dict := [] in
  n <- Py.int_of_float
         (Py.fdiv (Py.fmul (length_feet wall) (Py.flit 12))
                  (Py.flit (stud_spacing_inches wall))) ;;
  let num_studs_vertical := n + 1 in
  let num_studs_plates := 3 in
  let total_studs := num_studs_vertical + num_studs_plates in
  let materials := dict_set "studs_count" (Py.Int total_studs) materials in
  stud_lf <- Py.mul_int_float total_studs (height_feet wall) ;;
  let materials := dict_set "stud_linear_feet" (Py.Float stud_lf) materials in
  let materials :=
    dict_set "top_plate_lf" (Py.Float (Py.fmul (length_feet wall) (Py.flit 2)))
             materials in
  let materials :=
    dict_set "bottom_plate_lf" (Py.Float (length_feet wall)) materials in
  let materials :=
    dict_set "sheathing_sqft" (Py.Float (area_sqft wall)) materials in
  let materials :=
    dict_set "drywall_sqft" (Py.Float (area_sqft wall)) materials in
  let materials :=
    dict_set "insulation_sqft" (Py.Float (net_area_sqft wall)) materials in
  let materials :=
    if is_exterior wall then
      let trench_volume_cuft :=
        Py.fmul (Py.fmul (length_feet wall) (Py.flit 2)) (Py.fdec 5 10) in
      dict_set "gravel_cubic_yards"
               (Py.Float (Py.fdiv trench_volume_cuft (Py.flit 27))) materials
    else
      dict_set "gravel_cubic_yards" (Py.Float Py.fzero) materials in
  Ok materials.

Definition calculate_room_materials (room : Room) : result dict :=
  accumulate calculate_wall_materials (walls room) zero_totals.

(** *** CodeValidator *)

Definition IECC_RVALUE_REQUIREMENTS : list (ClimateZone * Z) :=
  [ (ZONE_1, 13); (ZONE_2, 13); (ZONE_3, 13); (ZONE_4, 15);
    (ZONE_5, 20); (ZONE_6, 20); (ZONE_7, 21); (ZONE_8, 21) ].

(** [IECC_RVALUE_REQUIREMENTS.get(zone, default)] *)
Fixpoint requirement_get (table : list (ClimateZone * Z)) (zone : ClimateZone)
  (default : Z) : Z :=
  match table with
  | [] => default
  | (z, v) :: table' =>
      if ClimateZone_eqb zone z then v else requirement_get table' zone default
  end.

Definition MIN_HEIGHT : Py.float := Py.flit 7.
Definition MIN_CLEAR_OPENING : Py.float := Py.fdec 57 10.

Definition _check_ceiling_height (room : Room) : list Finding :=
  if Py.flt (ceiling_height_feet room) MIN_HEIGHT then
    [ {| code := "IRC R305.1";
         severity := "ERROR";
         message := "Ceiling height " ++ Py.repr (ceiling_height_feet room) ++
                    "ft is below minimum " ++ Py.repr MIN_HEIGHT ++ "ft";
         component := Some (RoomType_value (room_type room)) |} ]
  else [].

Definition _check_bedroom_egress (room : Room) : result (list Finding) :=
  let windows := get_all_windows room in
  match windows with
  | [] =>
      Ok [ {| code := "IRC R310.1";
              severity := "ERROR";
              message := "Bedroom requires at least one egress window";
              component := Some (RoomType_value (room_type room)) |} ]
  | _ :: _ =>
      let has_compliant_egress :=
        existsb (fun window => Py.fge (clear_opening_sqft window) MIN_CLEAR_OPENING)
                windows in
      if negb has_compliant_egress then
        max_opening <- Py.max (map clear_opening_sqft windows) ;;
        Ok [ {| code := "IRC R310.1";
                severity := "ERROR";
                message := "No window meets egress requirement. " ++
                           "Required: " ++ Py.repr MIN_CLEAR_OPENING ++ " sq ft, " ++
                           "Largest found: " ++ Py.format_fixed 2 max_opening ++
                           " sq ft";
                component := Some (RoomType_value (room_type room)) |} ]
      else Ok []
  end.

(** The loop over [enumerate(room.walls)], from index [i]. *)
Fixpoint thermal_loop (project : Project) (required_rvalue : Z) (i : Z)
  (ws : list Wall) : list Finding :=
  match ws with
  | [] => []
  | wall :: rest =>
      (if is_exterior wall then
         if Py.flt (total_r_value wall) (Py.flit required_rvalue) then
           [ {| code := "IECC R402.1";
                severity := "ERROR";
                message := "Exterior wall R-value " ++
                           Py.format_fixed 1 (total_r_value wall) ++
                           " below required " ++ Py.str_of_int required_rvalue ++
                           " for Climate Zone " ++
                           Py.str_of_int (ClimateZone_value (climate_zone project));
                component := Some ("Wall #" ++ Py.str_of_int (i + 1) ++ " (" ++
                                   FramingType_value (framing_type wall) ++ ")") |} ]
         else []
       else [])
      ++ thermal_loop project required_rvalue (i + 1) rest
  end.

Definition _check_thermal_envelope (room : Room) (project : Project)
  : list Finding :=
  let required_rvalue :=
    requirement_get IECC_RVALUE_REQUIREMENTS (climate_zone project) 20 in
  thermal_loop project required_rvalue 0 (walls room).

Definition validate_room (room : Room) (project : Project)
  : result (list Finding) :=
  let errors : list Finding := [] in
  let errors : list Finding := (errors ++ _check_ceiling_height room)%list in
  errors <- (if RoomType_eqb (room_type room) BEDROOM
             then egress <- _check_bedroom_egress room ;;
                  Ok (errors ++ egress)%list
             else Ok errors) ;;
  let errors : list Finding :=
    (errors ++ _check_thermal_envelope room project)%list in
  Ok errors.

End Configurator.

(** ** [src/api.py]

    The request models set [use_enum_values], so an enum field of a parsed
    model holds the member's value: a [str] for the framing and the room
    type, an [int] for the climate zone.  The [isinstance] tests of the
    module therefore take their first branch, and the members of the
    [str]- and [int]-based enums compare and hash as their values. *)

Module Api.

Definition stored_framing_type (w : Wall) : string :=
  FramingType_value (framing_type w).

Definition stored_room_type (r : Room) : string :=
  RoomType_value (room_type r).

Definition stored_climate_zone (p : Project) : Z :=
  ClimateZone_value (climate_zone p).

(** *** Field constraints of the request models *)

Definition layer_valid (l : MaterialLayer) : bool :=
  Py.fgt (thickness_inches l) (Py.flit 0) &&
  Py.fge (r_value l) (Py.flit 0).

Definition window_valid (w : Window) : bool :=
  Py.fgt (width_inches w) (Py.flit 0) &&
  Py.fgt (height_inches w) (Py.flit 0) &&
  Py.fgt (u_factor w) (Py.flit 0) &&
  Py.fle (u_factor w) (Py.flit 2).

(** [validate_height] raises below 6.0 and above 20.0. *)
Definition validate_height (v : Py.float) : bool :=
  negb (Py.flt v (Py.flit 6)) && negb (Py.fgt v (Py.flit 20)).

Definition wall_valid (w : Wall) : bool :=
  Py.fgt (length_feet w) (Py.flit 0) &&
  Py.fgt (height_feet w) (Py.flit 0) &&
  validate_height (height_feet w) &&
  forallb layer_valid (layers w) &&
  forallb window_valid (windows w).

Definition room_valid (r : Room) : bool :=
  Py.fgt (ceiling_height_feet r) (Py.flit 0) &&
  (1 <=? List.length (walls r))%nat &&
  forallb wall_valid (walls r).

Definition project_valid (p : Project) : bool :=
  (1 <=? List.length (rooms p))%nat &&
  forallb room_valid (rooms p).

Definition stud_spacing_inches (w : Wall) : Z :=
  let framing_str := stored_framing_type w in
  if contains "16oc" framing_str then 16
  else if contains "24oc" framing_str then 24
  else 16.

(** *** MaterialCalculator *)

Definition calculate_wall_materials (wall : Wall) : result dict :=
  let materials : dict := [] in
  n <- Py.int_of_float
         (Py.fdiv (Py.fmul (length_feet wall) (Py.flit 12))
                  (Py.flit (stud_spacing_inches wall))) ;;
  let num_studs_vertical := n + 1 in
  let num_studs_plates := 3 in
  let total_studs := num_studs_vertical + num_studs_plates in
  let materials := dict_set "studs_count" (Py.Int total_studs) materials in
  stud_lf <- Py.mul_int_float total_studs (height_feet wall) ;;
  let materials := dict_set "stud_linear_feet" (Py.Float stud_lf) materials in
  let materials :=
    dict_set "top_plate_lf" (Py.Float (Py.fmul (length_feet wall) (Py.flit 2)))
             materials in
  let materials :=
    dict_set "bottom_plate_lf" (Py.Float (length_feet wall)) materials in
  let materials :=
    dict_set "sheathing_sqft" (Py.Float (area_sqft wall)) materials in
  let materials :=
    dict_set "drywall_sqft" (Py.Float (area_sqft wall)) materials in
  let materials :=
    dict_set "insulation_sqft" (Py.Float (net_area_sqft wall)) materials in
  let materials :=
    if is_exterior wall then
      let trench_volume_cuft :=
        Py.fmul (Py.fmul (length_feet wall) (Py.flit 2)) (Py.fdec 5 10) in
      dict_set "gravel_cubic_yards"
               (Py.Float (Py.fdiv trench_volume_cuft (Py.flit 27))) materials
    else
      dict_set "gravel_cubic_yards" (Py.Float Py.fzero) materials in
  Ok materials.

Definition calculate_room_materials (room : Room) : result dict :=
  accumulate calculate_wall_materials (walls room) zero_totals.

Definition calculate_project_materials (project : Project) : result dict :=
  accumulate calculate_room_materials (rooms project) zero_totals.

(** *** CodeValidator *)

(** The table, keyed by the integer each member is. *)
Definition IECC_RVALUE_REQUIREMENTS : list (Z * Z) :=
  [ (1, 13); (2, 13); (3, 13); (4, 15); (5, 20); (6, 20); (7, 21); (8, 21) ].

(** [IECC_RVALUE_REQUIREMENTS.get(zone, default)] *)
Fixpoint requirement_get (table : list (Z * Z)) (zone : Z) (default : Z) : Z :=
  match table with
  | [] => default
  | (z, v) :: table' =>
      if (zone =? z)%Z then v else requirement_get table' zone default
  end.

Definition MIN_HEIGHT : Py.float := Py.flit 7.
Definition MIN_CLEAR_OPENING : Py.float := Py.fdec 57 10.

Definition _check_ceiling_height (room : Room) : list Finding :=
  if Py.flt (ceiling_height_feet room) MIN_HEIGHT then
    let room_type_str := stored_room_type room in
    [ {| code := "IRC R305.1";
         severity := "ERROR";
         message := "Ceiling height " ++ Py.repr (ceiling_height_feet room) ++
                    "ft is below minimum " ++ Py.repr MIN_HEIGHT ++ "ft";
         component := Some room_type_str |} ]
  else [].

Definition _check_bedroom_egress (room : Room) : result (list Finding) :=
  let windows := get_all_windows room in
  match windows with
  | [] =>
      let room_type_str := stored_room_type room in
      Ok [ {| code := "IRC R310.1";
              severity := "ERROR";
              message := "Bedroom requires at least one egress window";
              component := Some room_type_str |} ]
  | _ :: _ =>
      let has_compliant_egress :=
        existsb (fun window => Py.fge (clear_opening_sqft window) MIN_CLEAR_OPENING)
                windows in
      if negb has_compliant_egress then
        max_opening <- Py.max (map clear_opening_sqft windows) ;;
        let room_type_str := stored_room_type room in
        Ok [ {| code := "IRC R310.1";
                severity := "ERROR";
                message := "No window meets egress requirement. " ++
                           "Required: " ++ Py.repr MIN_CLEAR_OPENING ++ " sq ft, " ++
                           "Largest found: " ++ Py.format_fixed 2 max_opening ++
                           " sq ft";
                component := Some room_type_str |} ]
      else Ok []
  end.

(** The loop over [enumerate(room.walls)], from index [i]. *)
Fixpoint thermal_loop (project : Project) (required_rvalue : Z) (i : Z)
  (ws : list Wall) : list Finding :=
  match ws with
  | [] => []
  | wall :: rest =>
      (if is_exterior wall then
         if Py.flt (total_r_value wall) (Py.flit required_rvalue) then
           let climate_zone_str := stored_climate_zone project in
           let framing_type_str := stored_framing_type wall in
           [ {| code := "IECC R402.1";
                severity := "ERROR";
                message := "Exterior wall R-value " ++
                           Py.format_fixed 1 (total_r_value wall) ++
                           " below required " ++ Py.str_of_int required_rvalue ++
                           " for Climate Zone " ++ Py.str_of_int climate_zone_str;
                component := Some ("Wall #" ++ Py.str_of_int (i + 1) ++ " (" ++
                                   framing_type_str ++ ")") |} ]
         else []
       else [])
      ++ thermal_loop project required_rvalue (i + 1) rest
  end.

Definition _check_thermal_envelope (room : Room) (project : Project)
  : list Finding :=
  let required_rvalue :=
    requirement_get IECC_RVALUE_REQUIREMENTS (stored_climate_zone project) 20 in
  thermal_loop project required_rvalue 0 (walls room).

Definition validate_room (room : Room) (project : Project)
  : result (list Finding) :=
  let errors : list Finding := [] in
  let errors : list Finding := (errors ++ _check_ceiling_height room)%list in
  errors <- (if String.eqb (stored_room_type room) (RoomType_value BEDROOM)
             then egress <- _check_bedroom_egress room ;;
                  Ok (errors ++ egress)%list
             else Ok errors) ;;
  let errors : list Finding :=
    (errors ++ _check_thermal_envelope room project)%list in
  Ok errors.

(** The label put in front of a finding of room number [room_idx]. *)
Definition room_label (room_idx : Z) (room : Room) : string :=
  let room_type_str := stored_room_type room in
  "Room " ++ Py.str_of_int (room_idx + 1) ++ " (" ++ room_type_str ++ ")".

(** [if error.component:] holds for a component that is neither [None] nor
    the empty string. *)
Definition add_room_context (room_idx : Z) (room : Room) (error : Finding)
  : Finding :=
  {| code := code error;
     severity := severity error;
     message := message error;
     component :=
       match component error with
       | Some (String a s) =>
           Some (room_label room_idx room ++ " - " ++ String a s)
       | _ => Some (room_label room_idx room)
       end |}.

(** The loop over [enumerate(project.rooms)], from index [room_idx]. *)
Fixpoint project_loop (project : Project) (room_idx : Z) (rs : list Room)
  : result (list Finding) :=
  match rs with
  | [] => Ok []
  | room :: rest =>
      room_errors <- validate_room room project ;;
      let room_errors := map (add_room_context room_idx room) room_errors in
      all_errors <- project_loop project (room_idx + 1) rest ;;
      Ok (room_errors ++ all_errors)%list
  end.

Definition validate_project (project : Project) : result (list Finding) :=
  project_loop project 0 (rooms project).

End Api.

(** ** Vocabulary of the statements *)

(** The results of the rounding step on a non-negative mantissa. *)
Inductive rounded (s : bool) : spec_float -> Prop :=
| rounded_zero : rounded s (S754_zero s)
| rounded_infinity : rounded s (S754_infinity s)
| rounded_finite (m : positive) (e : Z) :
    Zpos m < 2 ^ 53 -> e <= 971 -> rounded s (S754_finite s m e).

(** A float that is zero or finite, below [2^1024] in magnitude. *)
Definition bounded_finite (x : Py.float) : Prop :=
  match x with
  | S754_zero _ => True
  | S754_finite _ m e => Zpos m < 2 ^ 53 /\ e <= 971
  | _ => False
  end.

Definition sign_of (x : Py.float) : bool :=
  match x with
  | S754_zero s | S754_infinity s | S754_finite s _ _ => s
  | S754_nan => false
  end.

(** A rank that orders the floats other than NaN as [SFcompare] does. *)
Definition rank (x : Py.float) : Z * Z * Z :=
  match x with
  | S754_infinity false => (2, 0, 0)
  | S754_finite false m e => (1, e, Zpos m)
  | S754_zero _ => (0, 0, 0)
  | S754_nan => (0, 0, 0)
  | S754_finite true m e => (-1, - e, - Zpos m)
  | S754_infinity true => (-2, 0, 0)
  end.

Definition rank_le (a b : Z * Z * Z) : Prop :=
  let '(a1, a2, a3) := a in
  let '(b1, b2, b3) := b in
  a1 < b1 \/ (a1 = b1 /\ (a2 < b2 \/ (a2 = b2 /\ a3 <= b3))).

(** The quotient whose integer part counts the studs along the run. *)
Definition stud_quotient (wall : Wall) : Py.float :=
  Py.fdiv (Py.fmul (length_feet wall) (Py.flit 12))
          (Py.flit (Configurator.stud_spacing_inches wall)).

(** The stud count is computable when that quotient did not overflow. *)
Definition studs_computable (wall : Wall) : bool :=
  Py.is_finite (stud_quotient wall).

(** [d[k]], if the key is there. *)
Fixpoint lookup (k : string) (d : dict) : option Py.num :=
  match d with
  | [] => None
  | (k', v) :: d' => if String.eqb k k' then Some v else lookup k d'
  end.

(** The eight quantities of a takeoff. *)
Definition FIELDS : list string :=
  [ "studs_count"; "stud_linear_feet"; "top_plate_lf"; "bottom_plate_lf";
    "sheathing_sqft"; "drywall_sqft"; "insulation_sqft"; "gravel_cubic_yards" ].

(** The sum of a list of numbers, left to right from [start]. *)
Fixpoint sum_from (start : Py.num) (xs : list Py.num) : result Py.num :=
  match xs with
  | [] => Ok start
  | x :: xs' => s <- Py.add start x ;; sum_from s xs'
  end.

(** The field-by-field sum of a list of takeoffs, 0 being the sum of none. *)
Definition field_sums (parts : list dict) : result dict :=
  mapM (fun k =>
          v <- sum_from (Py.Int 0) (map (fun d => dict_get k d (Py.Int 0)) parts) ;;
          Ok (k, v))
       FIELDS.

(** The same from given starting totals. *)
Definition field_sums_from (totals : dict) (parts : list dict) : result dict :=
  mapM (fun kv : string * Py.num =>
          v <- sum_from (snd kv)
                 (map (fun d => dict_get (fst kv) d (Py.Int 0)) parts) ;;
          Ok (fst kv, v))
       totals.

(** An amount in a takeoff: the integer 0 it starts from, or a float. *)
Definition is_amount (v : Py.num) : Prop :=
  match v with
  | Py.Int n => n = 0
  | Py.Float _ => True
  end.

(** The shape of every takeoff: the eight keys in order, an integer count
    and seven amounts. *)
Definition takeoff_shaped (d : dict) : Prop :=
  keys d = FIELDS /\
  match d with
  | (_, Py.Int _) :: rest => Forall (fun kv => is_amount (snd kv)) rest
  | _ => False
  end.

(** The elements of a list with their 1-based positions. *)
Definition enumerate1 {A : Type} (l : list A) : list (Z * A) :=
  combine (map Z.of_nat (seq 1 (List.length l))) l.

Definition has_code (c : string) (f : Finding) : bool :=
  String.eqb (code f) c.

(** [mx] is the largest of [xs], when no NaN makes the comparison void. *)
Definition largest_of (xs : list Py.float) (mx : Py.float) : Prop :=
  forallb (fun x => negb (Py.is_nan x)) xs = true ->
  In mx xs /\ forall x, In x xs -> Py.fle x mx = true.

(** The required R-value of each zone, as the specification tabulates it. *)
Definition required_r_value (zone : ClimateZone) : Z :=
  match zone with
  | ZONE_1 | ZONE_2 | ZONE_3 => 13
  | ZONE_4 => 15
  | ZONE_5 | ZONE_6 => 20
  | ZONE_7 | ZONE_8 => 21
  end.

(** The same by zone number, with the fallback for a number outside 1-8. *)
Definition required_r_value_of_number (z : Z) : Z :=
  if (1 <=? z)%Z && (z <=? 3)%Z then 13
  else if (z =? 4)%Z then 15
  else if (5 <=? z)%Z && (z <=? 6)%Z then 20
  else if (7 <=? z)%Z && (z <=? 8)%Z then 21
  else 20.

(** An exterior wall under the required R-value. *)
Definition below_requirement (required : Z) (wall : Wall) : bool :=
  is_exterior wall && Py.flt (total_r_value wall) (Py.flit required).

(** The finding for the wall at 1-based position [i]. *)
Definition thermal_finding (project : Project) (i : Z) (wall : Wall) : Finding :=
  {| code := "IECC R402.1";
     severity := "ERROR";
     message := "Exterior wall R-value " ++
                Py.format_fixed 1 (total_r_value wall) ++
                " below required " ++
                Py.str_of_int (required_r_value (climate_zone project)) ++
                " for Climate Zone " ++
                Py.str_of_int (ClimateZone_value (climate_zone project));
     component := Some ("Wall #" ++ Py.str_of_int i ++ " (" ++
                        FramingType_value (framing_type wall) ++ ")") |}.

(** The rewriting of a component as the specification words it. *)
Definition relabel (i : Z) (room : Room) (f : Finding) : Finding :=
  let label :=
    "Room " ++ Py.str_of_int i ++ " (" ++ RoomType_value (room_type room) ++ ")" in
  {| code := code f;
     severity := severity f;
     message := message f;
     component := match component f with
                  | Some c => Some (label ++ " - " ++ c)
                  | None => Some label
                  end |}.

(** The dictionary a wall yields, inserted key after key. *)
Definition wall_takeoff (wall : Wall) (studs : Z) (stud_lf : Py.float) : dict :=
  [ ("studs_count", Py.Int studs);
    ("stud_linear_feet", Py.Float stud_lf);
    ("top_plate_lf", Py.Float (Py.fmul (length_feet wall) (Py.flit 2)));
    ("bottom_plate_lf", Py.Float (length_feet wall));
    ("sheathing_sqft", Py.Float (area_sqft wall));
    ("drywall_sqft", Py.Float (area_sqft wall));
    ("insulation_sqft", Py.Float (net_area_sqft wall));
    ("gravel_cubic_yards",
     Py.Float (if is_exterior wall
               then Py.fdiv (Py.fmul (Py.fmul (length_feet wall) (Py.flit 2))
                                     (Py.fdec 5 10))
                            (Py.flit 27)
               else Py.fzero)) ].

Definition ceiling_finding (room : Room) : Finding :=
  {| code := "IRC R305.1";
     severity := "ERROR";
     message := "Ceiling height " ++ Py.repr (ceiling_height_feet room) ++
                "ft is below minimum 7.0ft";
     component := Some (RoomType_value (room_type room)) |}.

Definition no_window_finding (room : Room) : Finding :=
  {| code := "IRC R310.1";
     severity := "ERROR";
     message := "Bedroom requires at least one egress window";
     component := Some (RoomType_value (room_type room)) |}.

Definition small_windows_finding (room : Room) (largest : Py.float) : Finding :=
  {| code := "IRC R310.1";
     severity := "ERROR";
     message := "No window meets egress requirement. Required: 5.7 sq ft, " ++
                "Largest found: " ++ Py.format_fixed 2 largest ++ " sq ft";
     component := Some (RoomType_value (room_type room)) |}.

(** A window that alone reaches the 5.7 sq ft of clear opening. *)
Definition meets_egress (w : Window) : bool :=
  Py.fge (clear_opening_sqft w) (Py.fdec 57 10).

(** Every room's findings, relabelled with the room's 1-based position. *)
Definition relabel_all (xs : list (Z * (Room * list Finding))) : list Finding :=
  List.concat (map (fun x => map (relabel (fst x) (fst (snd x))) (snd (snd x))) xs).

(** A component that [if error.component:] accepts. *)
Definition component_set (f : Finding) : Prop :=
  exists a s, component f = Some (String a s).

(** *** Concrete inputs *)

Definition window_of (width height : Z) : Window :=
  {| width_inches := Py.flit width;
     height_inches := Py.flit height;
     u_factor := Py.fdec 3 10;
     window_type := "Double-Hung" |}.

Definition wall_of (length : Py.float) (exterior : bool) (ws : list Window)
  : Wall :=
  {| length_feet := length;
     height_feet := Py.flit 8;
     framing_type := STUD_2x6_16OC;
     is_exterior := exterior;
     layers := [];
     windows := ws |}.

(** A 12 ft partition with the small window of the demonstration. *)
Definition north_wall : Wall := wall_of (Py.flit 12) false [window_of 24 24].

(** The same partition with two such windows. *)
Definition twin_wall : Wall :=
  wall_of (Py.flit 12) false [window_of 24 24; window_of 24 24].

(** A 12 ft exterior wall without insulation. *)
Definition street_wall : Wall := wall_of (Py.flit 12) true [].

(** A wall of 1e308 ft: every field constraint holds, and twelve times its
    length is beyond the largest double. *)
Definition huge_wall : Wall := wall_of (Py.flit (10 ^ 308)) true [].

(** A 4 ft wall holding a window of 60 in by 120 in. *)
Definition glazed_wall : Wall := wall_of (Py.flit 4) true [window_of 60 120].

Definition layer_of (name : string) (r : Py.float) : MaterialLayer :=
  {| layer_name := name; thickness_inches := Py.fdec 5 10; r_value := r |}.

(** The exterior assembly of the demonstration: 0.6 + 0.6 + 19.0 + 0.45. *)
Definition exterior_layers : list MaterialLayer :=
  [ layer_of "Vinyl Siding" (Py.fdec 6 10);
    layer_of "OSB Sheathing" (Py.fdec 6 10);
    layer_of "Fiberglass Batt R-19" (Py.flit 19);
    layer_of "Drywall" (Py.fdec 45 100) ].

Definition layered_wall (exterior : bool) (ls : list MaterialLayer) : Wall :=
  {| length_feet := Py.flit 12;
     height_feet := Py.flit 8;
     framing_type := STUD_2x6_16OC;
     is_exterior := exterior;
     layers := ls;
     windows := [] |}.

Definition room_of (t : RoomType) (ws : list Wall) : Room :=
  {| room_type := t; ceiling_height_feet := Py.flit 8; walls := ws |}.

Definition low_room (t : RoomType) (ws : list Wall) : Room :=
  {| room_type := t; ceiling_height_feet := Py.fdec 65 10; walls := ws |}.

Definition project_in (zone : ClimateZone) (rs : list Room) : Project :=
  {| project_name := "Maine Residence";
     location_zip := "04101";
     climate_zone := zone;
     rooms := rs |}.

Definition project_of (rs : list Room) : Project := project_in ZONE_6 rs.

Definition all_studs_computable (project : Project) : bool :=
  forallb (fun room => forallb studs_computable (walls room)) (rooms project).

(** *** Vocabulary of the further properties *)

(** The strict order of ranks. *)
Definition rank_lt (a b : Z * Z * Z) : Prop :=
  let '(a1, a2, a3) := a in
  let '(b1, b2, b3) := b in
  a1 < b1 \/ (a1 = b1 /\ (a2 < b2 \/ (a2 = b2 /\ a3 < b3))).

(** The pieces of lumber one wall counts. *)
Definition wall_studs (wall : Wall) : result Z :=
  n <- Py.int_of_float (stud_quotient wall) ;; Ok (n + 1 + 3).

(** A room on which none of the three checks finds anything. *)
Definition room_compliant (room : Room) (project : Project) : bool :=
  negb (Py.flt (ceiling_height_feet room) (Py.flit 7)) &&
  (negb (RoomType_eqb (room_type room) BEDROOM) ||
   existsb meets_egress (get_all_windows room)) &&
  forallb (fun wall =>
             negb (below_requirement (required_r_value (climate_zone project)) wall))
          (walls room).

(** A 12 ft partition with the egress window of the demonstration. *)
Definition egress_wall : Wall := wall_of (Py.flit 12) false [window_of 36 48].

(** Three walls of 0.1 ft, 0.2 ft and 0.3 ft, in two orders. *)
Definition short_wall (tenths : Z) : Wall :=
  wall_of (Py.fdec tenths 10) false [].

Definition rising_room : Room :=
  room_of LIVING [short_wall 1; short_wall 2; short_wall 3].

Definition falling_room : Room :=
  room_of LIVING [short_wall 3; short_wall 2; short_wall 1].

(** A finding of a room: severity "ERROR" and one of the three codes. *)
Definition tagged (f : Finding) : Prop :=
  severity f = "ERROR" /\
  (code f = "IRC R305.1" \/ code f = "IRC R310.1" \/ code f = "IECC R402.1").

(** What every finding of the service looks like: severity "ERROR", one of
    the three codes, a component that starts with the room label. *)
Definition well_formed_finding (f : Finding) : Prop :=
  severity f = "ERROR" /\
  (code f = "IRC R305.1" \/ code f = "IRC R310.1" \/ code f = "IECC R402.1") /\
  exists rest, component f = Some ("Room " ++ rest).

(** ** Facts about binary64 rounding *)

Section Rounding.

Local Open Scope Z_scope.

Lemma shr_1_m (r : shr_record) :
  0 <= shr_m r -> shr_m (shr_1 r) = shr_m r / 2.
Proof.
  destruct r as [m r s]; simpl; intros Hm.
  destruct m as [|p|p]; [reflexivity| |lia].
  destruct p as [p|p|]; simpl shr_m.
  - rewrite Pos2Z.inj_xI. apply Z.div_unique with (r := 1); lia.
  - rewrite Pos2Z.inj_xO. apply Z.div_unique with (r := 0); lia.
  - reflexivity.
Qed.

Lemma iter_shr_1_m (p : positive) : forall r : shr_record,
  0 <= shr_m r -> shr_m (iter_pos shr_1 p r) = shr_m r / 2 ^ Zpos p.
Proof.
  induction p as [p IH|p IH|]; intros r Hr; simpl iter_pos.
  - assert (H1 : 0 <= shr_m (shr_1 r)).
    { rewrite shr_1_m by assumption. apply Z.div_pos; lia. }
    assert (H2 : 0 <= shr_m (iter_pos shr_1 p (shr_1 r))).
    { rewrite IH by assumption. apply Z.div_pos; [assumption|]. apply Z.pow_pos_nonneg; lia. }
    rewrite IH, IH, shr_1_m by assumption.
    rewrite !Z.div_div by (try apply Z.pow_pos_nonneg; lia).
    f_equal. replace (Zpos p~1) with (1 + Zpos p + Zpos p) by lia.
    rewrite !Z.pow_add_r by lia. rewrite Z.pow_1_r. ring.
  - assert (H2 : 0 <= shr_m (iter_pos shr_1 p r)).
    { rewrite IH by assumption. apply Z.div_pos; [assumption|]. apply Z.pow_pos_nonneg; lia. }
    rewrite IH, IH by assumption.
    rewrite !Z.div_div by (try apply Z.pow_pos_nonneg; lia).
    f_equal. replace (Zpos p~0) with (Zpos p + Zpos p) by lia.
    rewrite !Z.pow_add_r by lia. ring.
  - rewrite shr_1_m by assumption. reflexivity.
Qed.

Lemma digits2_pos_size (p : positive) : digits2_pos p = Pos.size p.
Proof. induction p; simpl; congruence. Qed.

Lemma Zdigits2_bound (m : Z) : 0 <= m -> m < 2 ^ Zdigits2 m.
Proof.
  intros Hm. destruct m as [|p|p]; [reflexivity| |lia].
  simpl Zdigits2. rewrite digits2_pos_size.
  rewrite <- Pos2Z.inj_pow. apply Pos2Z.pos_lt_pos, Pos.size_gt.
Qed.

Lemma Zdigits2_nonneg (m : Z) : 0 <= Zdigits2 m.
Proof. destruct m; simpl; lia. Qed.

(** What [shr_fexp] leaves of a non-negative mantissa fits in 53 bits. *)
Lemma shr_fexp_bound (m e : Z) (l : location) :
  0 <= m ->
  0 <= shr_m (fst (shr_fexp Py.prec Py.emax m e l)) < 2 ^ 53.
Proof.
  intros Hm. unfold shr_fexp, shr.
  assert (Hrec : shr_m (shr_record_of_loc m l) = m).
  { destruct l as [|[| |]]; reflexivity. }
  pose proof (Zdigits2_bound m Hm) as Hd.
  pose proof (Zdigits2_nonneg m) as Hd0.
  set (d := Zdigits2 m) in *.
  assert (Hf : d + e - 53 <= fexp Py.prec Py.emax (d + e)).
  { unfold fexp, Py.prec. lia. }
  destruct (fexp Py.prec Py.emax (d + e) - e) as [|n|n] eqn:En; simpl fst.
  - rewrite Hrec. split; [assumption|].
    apply Z.lt_le_trans with (1 := Hd). apply Z.pow_le_mono_r; lia.
  - rewrite iter_shr_1_m by (rewrite Hrec; assumption). rewrite Hrec.
    split; [apply Z.div_pos; [assumption|apply Z.pow_pos_nonneg; lia]|].
    apply Z.div_lt_upper_bound; [apply Z.pow_pos_nonneg; lia|].
    rewrite <- Z.pow_add_r by lia.
    apply Z.lt_le_trans with (1 := Hd). apply Z.pow_le_mono_r; lia.
  - rewrite Hrec. split; [assumption|].
    apply Z.lt_le_trans with (1 := Hd). apply Z.pow_le_mono_r; lia.
Qed.

Lemma round_nearest_even_nonneg (m : Z) (l : location) :
  0 <= m -> 0 <= round_nearest_even m l.
Proof.
  intros Hm. destruct l as [|[| |]]; simpl; try assumption;
    try destruct (Z.even m); lia.
Qed.

Lemma binary_round_aux_rounded (s : bool) (m e : Z) (l : location) :
  0 <= m -> rounded s (binary_round_aux Py.prec Py.emax s m e l).
Proof.
  intros Hm. unfold binary_round_aux.
  pose proof (shr_fexp_bound m e l Hm) as H1.
  destruct (shr_fexp Py.prec Py.emax m e l) as [mrs' e'] eqn:E1. simpl fst in H1.
  pose proof (shr_fexp_bound
                (round_nearest_even (shr_m mrs') (loc_of_shr_record mrs')) e' loc_Exact
                (round_nearest_even_nonneg _ _ (proj1 H1))) as H2.
  destruct (shr_fexp Py.prec Py.emax _ e' loc_Exact) as [mrs'' e''] eqn:E2.
  simpl fst in H2.
  destruct (shr_m mrs'') as [|p|p] eqn:Em.
  - constructor.
  - destruct (Z.leb_spec e'' (Py.emax - Py.prec)) as [Hle|Hgt].
    + constructor; [lia|]. unfold Py.emax, Py.prec in Hle. lia.
    + constructor.
  - lia.
Qed.

End Rounding.

Section FloatFacts.
Local Open Scope Z_scope.

Lemma fmul_finite_rounded (sx : bool) (mx : positive) (ex : Z)
  (sy : bool) (my : positive) (ey : Z) :
  rounded (xorb sx sy)
          (Py.fmul (S754_finite sx mx ex) (S754_finite sy my ey)).
Proof.
  unfold Py.fmul, SFmul. apply binary_round_aux_rounded. lia.
Qed.

Lemma fdiv_finite_rounded (sx : bool) (mx : positive) (ex : Z)
  (sy : bool) (my : positive) (ey : Z) :
  rounded (xorb sx sy)
          (Py.fdiv (S754_finite sx mx ex) (S754_finite sy my ey)).
Proof.
  unfold Py.fdiv, SFdiv.
  destruct (SFdiv_core_binary Py.prec Py.emax (Zpos mx) ex (Zpos my) ey)
    as [[mz ez] lz] eqn:E.
  apply binary_round_aux_rounded.
  unfold SFdiv_core_binary in E.
  set (s := _ - _ - _) in E.
  set (m' := match s with Zpos _ => _ | Z0 => _ | Zneg _ => _ end) in E.
  assert (Hm' : 0 <= m').
  { subst m'. destruct s; try lia. apply Z.shiftl_nonneg. lia. }
  pose proof (Z_div_mod m' (Zpos my) ltac:(lia)) as Hdm.
  destruct (Z.div_eucl m' (Zpos my)) as [q r].
  inversion E; subst. nia.
Qed.

Lemma rounded_finite_bounded (s : bool) (x : Py.float) :
  rounded s x -> Py.is_finite x = true -> bounded_finite x /\ sign_of x = s.
Proof.
  intros [| |m e Hm He] Hf; simpl in *; try discriminate; auto.
Qed.

Lemma flit_16 : Py.flit 16 = S754_finite false 4503599627370496 (-48).
Proof. reflexivity. Qed.

Lemma flit_24 : Py.flit 24 = S754_finite false 6755399441055744 (-48).
Proof. reflexivity. Qed.

Lemma flit_12 : Py.flit 12 = S754_finite false 6755399441055744 (-49).
Proof. reflexivity. Qed.

(** A finite quotient by a finite non-zero divisor is within range. *)
Lemma fdiv_finite_bounded (x : Py.float) (sy : bool) (my : positive) (ey : Z) :
  Py.is_finite (Py.fdiv x (S754_finite sy my ey)) = true ->
  bounded_finite (Py.fdiv x (S754_finite sy my ey)).
Proof.
  destruct x as [s|s| |s m e]; try (simpl; discriminate).
  - intros _. exact I.
  - intros H. apply (rounded_finite_bounded _ _ (fdiv_finite_rounded _ _ _ _ _ _) H).
Qed.

Lemma shiftl_bound (m : positive) (e : Z) :
  Zpos m < 2 ^ 53 -> e <= 971 ->
  0 <= Z.shiftl (Zpos m) e <= (2 ^ 53 - 1) * 2 ^ 971.
Proof.
  intros Hm He. split; [apply Z.shiftl_nonneg; lia|].
  destruct (Z.leb_spec 0 e) as [H0|H0].
  - rewrite Z.shiftl_mul_pow2 by assumption.
    assert (0 < 2 ^ e) by (apply Z.pow_pos_nonneg; lia).
    assert (2 ^ e <= 2 ^ 971) by (apply Z.pow_le_mono_r; lia).
    apply Z.mul_le_mono_nonneg; lia.
  - rewrite Z.shiftl_div_pow2 by lia.
    assert (0 < 2 ^ (- e)) by (apply Z.pow_pos_nonneg; lia).
    assert (Zpos m / 2 ^ (- e) <= Zpos m).
    { apply Z.div_le_upper_bound; [assumption|]. nia. }
    assert (0 < 2 ^ 971) by (apply Z.pow_pos_nonneg; lia).
    nia.
Qed.

(** [int] of a float within range, and the conversion back of a nearby
    integer, do not raise. *)
Lemma int_of_float_bounded (x : Py.float) :
  bounded_finite x ->
  exists n, Py.int_of_float x = Ok n /\ Z.abs n <= (2 ^ 53 - 1) * 2 ^ 971.
Proof.
  destruct x as [s|s| |s m e]; cbn [bounded_finite Py.int_of_float];
    try contradiction.
  - intros _. exists 0. split; [reflexivity|]. change (Z.abs 0) with 0.
    apply Z.mul_nonneg_nonneg; [lia|]. apply Z.pow_nonneg. lia.
  - intros [Hm He]. eexists. split; [reflexivity|].
    pose proof (shiftl_bound m e Hm He). destruct s; cbn [cond_Zopp]; lia.
Qed.

Lemma float_of_int_near (n k : Z) :
  Z.abs n <= (2 ^ 53 - 1) * 2 ^ 971 -> 0 <= k <= 4 ->
  Py.float_of_int (n + k) = Ok (binary_normalize Py.prec Py.emax (n + k) 0 false).
Proof.
  intros Hn Hk. unfold Py.float_of_int.
  assert (Hlt : Z.abs (n + k) < Py.float_overflow_threshold).
  { unfold Py.float_overflow_threshold.
    replace (2 ^ 1024) with (2 ^ 53 * 2 ^ 971) by (rewrite <- Z.pow_add_r by lia; reflexivity).
    replace (2 ^ 971) with (2 * 2 ^ 970) in * by (rewrite <- Z.pow_succ_r by lia; reflexivity).
    assert (8 <= 2 ^ 970).
    { change 8 with (2 ^ 3). apply Z.pow_le_mono_r; lia. }
    lia. }
  apply Z.ltb_lt in Hlt. rewrite Hlt. reflexivity.
Qed.

(** On a non-negative float, truncation is the floor of the exact value. *)
Lemma int_of_float_floor (x : Py.float) :
  Py.is_finite x = true -> sign_of x = false ->
  Py.int_of_float x = Ok (Qfloor (Py.to_Q x)).
Proof.
  destruct x as [s|s| |s m e]; simpl; try discriminate.
  - reflexivity.
  - intros _ ->. simpl cond_Zopp. f_equal.
    destruct e as [|p|p].
    + rewrite Qfloor_Z. rewrite Z.shiftl_mul_pow2 by lia. reflexivity.
    + rewrite Qfloor_Z. rewrite Z.shiftl_mul_pow2 by lia. reflexivity.
    + unfold Qfloor. rewrite Z.shiftl_div_pow2 by lia.
      rewrite Pos2Z.inj_pow. reflexivity.
Qed.

End FloatFacts.

(** ** The order of floats *)

Section Order.
Local Open Scope Z_scope.

Lemma rank_le_trans a b c : rank_le a b -> rank_le b c -> rank_le a c.
Proof.
  destruct a as [[a1 a2] a3], b as [[b1 b2] b3], c as [[c1 c2] c3].
  unfold rank_le. lia.
Qed.

Lemma fle_rank (x y : Py.float) :
  Py.is_nan x = false -> Py.is_nan y = false ->
  (Py.fle x y = true <-> rank_le (rank x) (rank y)).
Proof.
  unfold Py.fle, SFleb.
  destruct x as [sx|sx| |sx mx ex], y as [sy|sy| |sy my ey];
    try discriminate; intros _ _;
    try (destruct sx); try (destruct sy); cbn [SFcompare rank rank_le];
    try (split; [intros _; lia | reflexivity]);
    try (split; [discriminate | lia]).
  - change (PosDef.Pos.compare_cont Eq mx my) with (Pos.compare mx my).
    destruct (Z.compare_spec ex ey) as [H|H|H].
    + subst. destruct (Pos.compare_spec mx my) as [H|H|H]; cbn [CompOpp];
        (split; [try discriminate; intros _; lia | try reflexivity; lia]).
    + split; [discriminate | lia].
    + split; [intros _; lia | reflexivity].
  - change (PosDef.Pos.compare_cont Eq mx my) with (Pos.compare mx my).
    destruct (Z.compare_spec ex ey) as [H|H|H].
    + subst. destruct (Pos.compare_spec mx my) as [H|H|H];
        (split; [try discriminate; intros _; lia | try reflexivity; lia]).
    + split; [intros _; lia | reflexivity].
    + split; [discriminate | lia].
Qed.

Lemma fgt_false_fle (x y : Py.float) :
  Py.is_nan x = false -> Py.is_nan y = false ->
  Py.fgt y x = false -> Py.fle y x = true.
Proof.
  unfold Py.fgt, Py.fle, SFltb, SFleb.
  destruct x as [sx|sx| |sx mx ex], y as [sy|sy| |sy my ey];
    try discriminate; intros _ _;
    try (destruct sx); try (destruct sy); cbn [SFcompare];
    try reflexivity; try discriminate.
  - change (PosDef.Pos.compare_cont Eq my mx) with (Pos.compare my mx).
    change (PosDef.Pos.compare_cont Eq mx my) with (Pos.compare mx my).
    rewrite (Z.compare_antisym ex ey), (Pos.compare_antisym mx my).
    destruct (ex ?= ey); cbn [CompOpp]; try reflexivity; try discriminate.
    destruct (mx ?= my)%positive; cbn [CompOpp]; try reflexivity; discriminate.
  - change (PosDef.Pos.compare_cont Eq my mx) with (Pos.compare my mx).
    change (PosDef.Pos.compare_cont Eq mx my) with (Pos.compare mx my).
    rewrite (Z.compare_antisym ex ey), (Pos.compare_antisym mx my).
    destruct (ex ?= ey); cbn [CompOpp]; try reflexivity; try discriminate.
    destruct (mx ?= my)%positive; cbn [CompOpp]; try reflexivity; discriminate.
Qed.

Lemma fgt_true_fle (x y : Py.float) :
  Py.fgt y x = true -> Py.fle x y = true.
Proof.
  unfold Py.fgt, Py.fle, SFltb, SFleb.
  destruct (SFcompare x y) as [[| |]|]; try discriminate; reflexivity.
Qed.

Lemma fle_refl (x : Py.float) : Py.is_nan x = false -> Py.fle x x = true.
Proof.
  intros Hx. apply fle_rank; try assumption.
  destruct (rank x) as [[a b] c]. unfold rank_le. lia.
Qed.

Lemma fle_trans (x y z : Py.float) :
  Py.is_nan x = false -> Py.is_nan y = false -> Py.is_nan z = false ->
  Py.fle x y = true -> Py.fle y z = true -> Py.fle x z = true.
Proof.
  intros Hx Hy Hz Hxy Hyz. apply fle_rank; try assumption.
  apply rank_le_trans with (rank y); apply fle_rank; assumption.
Qed.

(** The running maximum of the [max] loop. *)
Lemma max_loop_spec (rest : list Py.float) : forall cur : Py.float,
  Py.is_nan cur = false ->
  forallb (fun x => negb (Py.is_nan x)) rest = true ->
  let mx := fold_left (fun cur y => if Py.fgt y cur then y else cur) rest cur in
  Py.is_nan mx = false /\ In mx (cur :: rest) /\
  (forall x, In x (cur :: rest) -> Py.fle x mx = true).
Proof.
  induction rest as [|y rest IH]; intros cur Hcur Hrest; cbn [fold_left].
  - split; [assumption|]. split; [left; reflexivity|].
    intros x [<-|[]]. apply fle_refl; assumption.
  - cbn [forallb] in Hrest. apply andb_prop in Hrest as [Hy Hrest].
    apply negb_true_iff in Hy.
    destruct (Py.fgt y cur) eqn:Hgt.
    + destruct (IH y Hy Hrest) as (Hn & Hin & Hle).
      split; [assumption|]. split.
      * destruct Hin as [<-|Hin]; [right; left; reflexivity|right; right; assumption].
      * intros x [<-|[<-|Hx]].
        -- apply fle_trans with y; try assumption.
           ++ apply fgt_true_fle; assumption.
           ++ apply Hle. left; reflexivity.
        -- apply Hle. left; reflexivity.
        -- apply Hle. right; assumption.
    + destruct (IH cur Hcur Hrest) as (Hn & Hin & Hle).
      split; [assumption|]. split.
      * destruct Hin as [<-|Hin]; [left; reflexivity|right; right; assumption].
      * intros x [<-|[<-|Hx]].
        -- apply Hle. left; reflexivity.
        -- apply fle_trans with cur; try assumption.
           ++ apply fgt_false_fle; assumption.
           ++ apply Hle. left; reflexivity.
        -- apply Hle. right; assumption.
Qed.
End Order.

(** ** The material calculator *)

Section Materials.

Lemma calculate_wall_materials_unfold (wall : Wall) :
  Configurator.calculate_wall_materials wall =
  (n <- Py.int_of_float (stud_quotient wall) ;;
   stud_lf <- Py.mul_int_float (n + 1 + 3) (height_feet wall) ;;
   Ok (wall_takeoff wall (n + 1 + 3) stud_lf)).
Proof.
  unfold Configurator.calculate_wall_materials, stud_quotient.
  destruct (Py.int_of_float _) as [n|e]; [|reflexivity]. cbn [bind].
  destruct (Py.mul_int_float _ _) as [x|e]; [|reflexivity]. cbn [bind].
  unfold wall_takeoff. destruct (is_exterior wall); reflexivity.
Qed.

Lemma wall_takeoff_shaped (wall : Wall) (studs : Z) (stud_lf : Py.float) :
  takeoff_shaped (wall_takeoff wall studs stud_lf).
Proof.
  split; [reflexivity|]. cbn. repeat constructor.
Qed.

Lemma calculate_wall_materials_shaped (wall : Wall) (d : dict) :
  Configurator.calculate_wall_materials wall = Ok d -> takeoff_shaped d.
Proof.
  rewrite calculate_wall_materials_unfold.
  destruct (Py.int_of_float _) as [n|e]; [|discriminate]. cbn [bind].
  destruct (Py.mul_int_float _ _) as [x|e]; [|discriminate]. cbn [bind].
  intros [= <-]. apply wall_takeoff_shaped.
Qed.

Lemma add_amount (a b : Py.num) :
  is_amount a -> is_amount b -> exists c, Py.add a b = Ok c /\ is_amount c.
Proof.
  destruct a as [m|x], b as [n|y]; cbn [is_amount]; intros Ha Hb; subst.
  - exists (Py.Int 0). split; reflexivity.
  - eexists. split; [reflexivity|exact I].
  - eexists. split; [reflexivity|exact I].
  - eexists. split; [reflexivity|exact I].
Qed.

Lemma takeoff_shaped_inv (d : dict) :
  takeoff_shaped d ->
  exists n v1 v2 v3 v4 v5 v6 v7,
    d = [ ("studs_count", Py.Int n); ("stud_linear_feet", v1);
          ("top_plate_lf", v2); ("bottom_plate_lf", v3);
          ("sheathing_sqft", v4); ("drywall_sqft", v5);
          ("insulation_sqft", v6); ("gravel_cubic_yards", v7) ] /\
    is_amount v1 /\ is_amount v2 /\ is_amount v3 /\ is_amount v4 /\
    is_amount v5 /\ is_amount v6 /\ is_amount v7.
Proof.
  intros [Hk Hs]. unfold keys, FIELDS in Hk.
  destruct d as [|[k0 v0] d]; [discriminate|].
  destruct d as [|[k1 v1] d]; [discriminate|].
  destruct d as [|[k2 v2] d]; [discriminate|].
  destruct d as [|[k3 v3] d]; [discriminate|].
  destruct d as [|[k4 v4] d]; [discriminate|].
  destruct d as [|[k5 v5] d]; [discriminate|].
  destruct d as [|[k6 v6] d]; [discriminate|].
  destruct d as [|[k7 v7] d]; [discriminate|].
  destruct d as [|? d]; [|discriminate].
  cbn [map fst] in Hk. injection Hk as -> -> -> -> -> -> -> ->.
  destruct v0 as [n|x]; [|contradiction].
  repeat match goal with
         | H : Forall _ (_ :: _) |- _ => inversion H; subst; clear H
         end.
  cbn [snd] in *.
  exists n, v1, v2, v3, v4, v5, v6, v7. repeat split; assumption.
Qed.

Lemma add_into_shaped (totals part : dict) :
  takeoff_shaped totals -> takeoff_shaped part ->
  exists totals', add_into totals part = Ok totals' /\ takeoff_shaped totals'.
Proof.
  intros Ht Hp.
  destruct (takeoff_shaped_inv _ Ht)
    as (n & a1 & a2 & a3 & a4 & a5 & a6 & a7 & -> & A1 & A2 & A3 & A4 & A5 & A6 & A7).
  destruct (takeoff_shaped_inv _ Hp)
    as (m & b1 & b2 & b3 & b4 & b5 & b6 & b7 & -> & B1 & B2 & B3 & B4 & B5 & B6 & B7).
  destruct (add_amount _ _ A1 B1) as (c1 & E1 & C1).
  destruct (add_amount _ _ A2 B2) as (c2 & E2 & C2).
  destruct (add_amount _ _ A3 B3) as (c3 & E3 & C3).
  destruct (add_amount _ _ A4 B4) as (c4 & E4 & C4).
  destruct (add_amount _ _ A5 B5) as (c5 & E5 & C5).
  destruct (add_amount _ _ A6 B6) as (c6 & E6 & C6).
  destruct (add_amount _ _ A7 B7) as (c7 & E7 & C7).
  unfold add_into.
  cbn [mapM fst snd dict_get String.eqb Ascii.eqb Bool.eqb Py.add bind].
  rewrite E1, E2, E3, E4, E5, E6, E7. cbn [bind].
  eexists. split; [reflexivity|].
  split; [reflexivity|]. cbn. repeat constructor; assumption.
Qed.

Lemma field_sums_from_nil (totals : dict) :
  field_sums_from totals [] = Ok totals.
Proof.
  unfold field_sums_from.
  induction totals as [|[k v] totals IH]; [reflexivity|].
  cbn [mapM map sum_from bind fst snd] in *. rewrite IH. reflexivity.
Qed.

Lemma field_sums_from_cons (part : dict) (parts : list dict) :
  forall totals totals' : dict,
  add_into totals part = Ok totals' ->
  field_sums_from totals (part :: parts) = field_sums_from totals' parts.
Proof.
  unfold add_into, field_sums_from.
  induction totals as [|[k v] totals IH]; intros totals' H.
  - cbn in H. injection H as <-. reflexivity.
  - cbn [mapM map sum_from bind fst snd] in *.
    destruct (Py.add v (dict_get k part (Py.Int 0))) as [v'|e]; [|discriminate].
    cbn [bind] in *.
    destruct (mapM _ totals) as [rest|e] eqn:E; [|discriminate].
    cbn [bind] in H. injection H as <-.
    cbn [mapM map sum_from bind fst snd].
    rewrite (IH rest eq_refl). reflexivity.
Qed.

Lemma field_sums_from_zero (parts : list dict) :
  field_sums parts = field_sums_from zero_totals parts.
Proof. reflexivity. Qed.

Lemma zero_totals_shaped : takeoff_shaped zero_totals.
Proof. split; [reflexivity|]. cbn. repeat constructor. Qed.

End Materials.

Section Aggregation.

Context {A : Type} (f : A -> result dict).
Hypothesis f_shaped : forall (a : A) (d : dict), f a = Ok d -> takeoff_shaped d.

Lemma accumulate_field_sums_from (children : list A) : forall totals : dict,
  takeoff_shaped totals ->
  accumulate f children totals =
  (parts <- mapM f children ;; field_sums_from totals parts).
Proof.
  induction children as [|c rest IH]; intros totals Ht; cbn [accumulate mapM bind].
  - rewrite field_sums_from_nil. reflexivity.
  - destruct (f c) as [part|e] eqn:Ec; [|reflexivity]. cbn [bind].
    destruct (add_into_shaped totals part Ht (f_shaped c part Ec))
      as (totals' & Eadd & Ht').
    rewrite Eadd. cbn [bind]. rewrite (IH totals' Ht').
    destruct (mapM f rest) as [parts|e]; [|reflexivity]. cbn [bind].
    symmetry. apply field_sums_from_cons. assumption.
Qed.

Lemma accumulate_shaped (children : list A) : forall totals d : dict,
  takeoff_shaped totals ->
  accumulate f children totals = Ok d -> takeoff_shaped d.
Proof.
  induction children as [|c rest IH]; intros totals d Ht; cbn [accumulate].
  - intros [= <-]. assumption.
  - destruct (f c) as [part|e] eqn:Ec; [|discriminate]. cbn [bind].
    destruct (add_into_shaped totals part Ht (f_shaped c part Ec))
      as (totals' & Eadd & Ht').
    rewrite Eadd. cbn [bind]. apply IH. assumption.
Qed.

Lemma accumulate_total (children : list A) : forall totals : dict,
  takeoff_shaped totals ->
  Forall (fun c => exists d, f c = Ok d) children ->
  exists d, accumulate f children totals = Ok d.
Proof.
  induction children as [|c rest IH]; intros totals Ht Hall; cbn [accumulate].
  - eexists. reflexivity.
  - inversion Hall as [|? ? [part Ec] Hrest]; subst.
    rewrite Ec. cbn [bind].
    destruct (add_into_shaped totals part Ht (f_shaped c part Ec))
      as (totals' & Eadd & Ht').
    rewrite Eadd. cbn [bind]. apply IH; assumption.
Qed.

End Aggregation.

Section MaterialsTotal.

Lemma stud_spacing_by_framing (wall : Wall) :
  Configurator.stud_spacing_inches wall =
  match framing_type wall with
  | STUD_2x4_16OC | STUD_2x6_16OC => 16
  | STUD_2x4_24OC | STUD_2x6_24OC => 24
  end.
Proof.
  unfold Configurator.stud_spacing_inches.
  destruct (framing_type wall); reflexivity.
Qed.

Lemma stud_quotient_bounded (wall : Wall) :
  studs_computable wall = true -> bounded_finite (stud_quotient wall).
Proof.
  unfold studs_computable, stud_quotient.
  rewrite stud_spacing_by_framing.
  destruct (framing_type wall); rewrite ?flit_16, ?flit_24;
    apply fdiv_finite_bounded.
Qed.

(** A wall whose stud quotient is finite has its takeoff. *)
Lemma calculate_wall_materials_total (wall : Wall) :
  studs_computable wall = true ->
  exists n,
    Py.int_of_float (stud_quotient wall) = Ok n /\
    Configurator.calculate_wall_materials wall =
    Ok (wall_takeoff wall (n + 1 + 3)
          (Py.fmul (binary_normalize Py.prec Py.emax (n + 1 + 3) 0 false)
                   (height_feet wall))).
Proof.
  intros Hc.
  destruct (int_of_float_bounded _ (stud_quotient_bounded wall Hc)) as (n & En & Hn).
  exists n. split; [assumption|].
  rewrite calculate_wall_materials_unfold, En. cbn [bind].
  unfold Py.mul_int_float.
  replace (n + 1 + 3)%Z with (n + 4)%Z by lia.
  rewrite (float_of_int_near n 4 Hn) by lia. reflexivity.
Qed.

End MaterialsTotal.

(** ** The code validator *)

Section Validator.

Lemma repr_MIN_HEIGHT : Py.repr Configurator.MIN_HEIGHT = "7.0".
Proof. vm_compute. reflexivity. Qed.

Lemma repr_MIN_CLEAR_OPENING : Py.repr Configurator.MIN_CLEAR_OPENING = "5.7".
Proof. vm_compute. reflexivity. Qed.

Lemma check_ceiling_height_spec (room : Room) :
  Configurator._check_ceiling_height room =
  if Py.flt (ceiling_height_feet room) (Py.flit 7)
  then [ceiling_finding room] else [].
Proof.
  unfold Configurator._check_ceiling_height, ceiling_finding.
  rewrite repr_MIN_HEIGHT. reflexivity.
Qed.

Lemma max_largest (xs : list Py.float) (mx : Py.float) :
  Py.max xs = Ok mx -> largest_of xs mx.
Proof.
  destruct xs as [|x rest]; [discriminate|]. cbn [Py.max].
  intros [= <-] Hnan. cbn [forallb] in Hnan.
  apply andb_prop in Hnan as [Hx Hrest]. apply negb_true_iff in Hx.
  destruct (max_loop_spec rest x Hx Hrest) as (_ & Hin & Hle).
  split; assumption.
Qed.

Lemma check_bedroom_egress_spec (room : Room) :
  Configurator._check_bedroom_egress room =
  match get_all_windows room with
  | [] => Ok [no_window_finding room]
  | w :: ws =>
      if existsb meets_egress (w :: ws) then Ok []
      else Ok [small_windows_finding room
                 (fold_left (fun cur y => if Py.fgt y cur then y else cur)
                            (map clear_opening_sqft ws) (clear_opening_sqft w))]
  end.
Proof.
  unfold Configurator._check_bedroom_egress.
  destruct (get_all_windows room) as [|w ws]; [reflexivity|].
  change (fun window => Py.fge (clear_opening_sqft window) Configurator.MIN_CLEAR_OPENING)
    with meets_egress.
  destruct (existsb meets_egress (w :: ws)); [reflexivity|].
  cbn [negb map Py.max bind]. unfold small_windows_finding.
  rewrite repr_MIN_CLEAR_OPENING. reflexivity.
Qed.

Lemma thermal_loop_spec (project : Project) (ws : list Wall) : forall n : nat,
  Configurator.thermal_loop project (required_r_value (climate_zone project))
                            (Z.of_nat n) ws =
  map (fun iw => thermal_finding project (fst iw) (snd iw))
      (filter (fun iw => below_requirement (required_r_value (climate_zone project))
                                           (snd iw))
              (combine (map Z.of_nat (seq (S n) (List.length ws))) ws)).
Proof.
  induction ws as [|wall rest IH]; intros n; [reflexivity|].
  cbn [Configurator.thermal_loop List.length seq map combine filter snd fst].
  replace (Z.of_nat n + 1)%Z with (Z.of_nat (S n)) by lia.
  rewrite IH. unfold below_requirement at 2.
  destruct (is_exterior wall); cbn [andb]; [|reflexivity].
  destruct (Py.flt _ _); reflexivity.
Qed.

Lemma requirement_get_spec (zone : ClimateZone) :
  Configurator.requirement_get Configurator.IECC_RVALUE_REQUIREMENTS zone 20 =
  required_r_value zone.
Proof. destruct zone; reflexivity. Qed.

Lemma check_thermal_envelope_spec (room : Room) (project : Project) :
  Configurator._check_thermal_envelope room project =
  map (fun iw => thermal_finding project (fst iw) (snd iw))
      (filter (fun iw => below_requirement (required_r_value (climate_zone project))
                                           (snd iw))
              (enumerate1 (walls room))).
Proof.
  unfold Configurator._check_thermal_envelope. rewrite requirement_get_spec.
  apply (thermal_loop_spec project (walls room) 0).
Qed.

Lemma api_requirement_get_spec (z : Z) :
  Api.requirement_get Api.IECC_RVALUE_REQUIREMENTS z 20 =
  required_r_value_of_number z.
Proof.
  unfold required_r_value_of_number, Api.IECC_RVALUE_REQUIREMENTS.
  cbn [Api.requirement_get].
  repeat match goal with
         | |- context [(z =? ?k)%Z] => destruct (Z.eqb_spec z k); [subst; reflexivity|]
         end.
  repeat match goal with
         | |- context [(?a <=? ?b)%Z] => destruct (Z.leb_spec a b)
         end; cbn [andb]; try reflexivity; lia.
Qed.

Lemma flt_irrefl (x : Py.float) : Py.flt x x = false.
Proof.
  unfold Py.flt, SFltb.
  destruct x as [s|s| |s m e]; cbn [SFcompare]; try reflexivity.
  - destruct s; reflexivity.
  - change (PosDef.Pos.compare_cont Eq m m) with (Pos.compare m m).
    rewrite Z.compare_refl, Pos.compare_refl. destruct s; reflexivity.
Qed.

(** The three checks in their order; the egress check cannot raise. *)
Lemma validate_room_unfold (room : Room) (project : Project) :
  exists egress,
    Configurator._check_bedroom_egress room = Ok egress /\
    Configurator.validate_room room project =
    Ok (Configurator._check_ceiling_height room ++
        (if RoomType_eqb (room_type room) BEDROOM then egress else []) ++
        Configurator._check_thermal_envelope room project)%list.
Proof.
  unfold Configurator.validate_room.
  rewrite check_bedroom_egress_spec.
  destruct (get_all_windows room) as [|w ws].
  - eexists. split; [reflexivity|].
    destruct (RoomType_eqb _ _); cbn [bind app]; rewrite <- ?app_assoc; reflexivity.
  - destruct (existsb meets_egress (w :: ws)).
    + eexists. split; [reflexivity|].
      destruct (RoomType_eqb _ _); cbn [bind app]; rewrite <- ?app_assoc; reflexivity.
    + eexists. split; [reflexivity|].
      destruct (RoomType_eqb _ _); cbn [bind app]; rewrite <- ?app_assoc; reflexivity.
Qed.

End Validator.

Section Findings.

Lemma filter_has_code_all (c : string) (l : list Finding) :
  Forall (fun f => code f = c) l -> filter (has_code c) l = l.
Proof.
  induction 1 as [|f l Hf _ IH]; [reflexivity|].
  cbn [filter]. unfold has_code at 1. rewrite Hf, String.eqb_refl, IH. reflexivity.
Qed.

Lemma filter_has_code_none (c c' : string) (l : list Finding) :
  Forall (fun f => code f = c') l -> String.eqb c' c = false ->
  filter (has_code c) l = [].
Proof.
  intros Hl Hc. induction Hl as [|f l Hf _ IH]; [reflexivity|].
  cbn [filter]. unfold has_code at 1. rewrite Hf, Hc. assumption.
Qed.

Lemma ceiling_codes (room : Room) :
  Forall (fun f => code f = "IRC R305.1") (Configurator._check_ceiling_height room).
Proof.
  unfold Configurator._check_ceiling_height.
  destruct (Py.flt _ _); repeat constructor.
Qed.

Lemma egress_codes (room : Room) (egress : list Finding) :
  Configurator._check_bedroom_egress room = Ok egress ->
  Forall (fun f => code f = "IRC R310.1") egress.
Proof.
  rewrite check_bedroom_egress_spec.
  destruct (get_all_windows room) as [|w ws].
  - intros [= <-]. repeat constructor.
  - destruct (existsb _ _); intros [= <-]; repeat constructor.
Qed.

Lemma thermal_codes (room : Room) (project : Project) :
  Forall (fun f => code f = "IECC R402.1")
         (Configurator._check_thermal_envelope room project).
Proof.
  rewrite check_thermal_envelope_spec. apply Forall_map.
  apply Forall_forall. reflexivity.
Qed.

Lemma RoomType_value_nonempty (t : RoomType) :
  exists a s, RoomType_value t = String a s.
Proof. destruct t; eexists; eexists; reflexivity. Qed.

Lemma ceiling_components (room : Room) :
  Forall component_set (Configurator._check_ceiling_height room).
Proof.
  unfold Configurator._check_ceiling_height, component_set.
  destruct (RoomType_value_nonempty (room_type room)) as (a & s & E).
  destruct (Py.flt _ _); repeat constructor. cbn [component].
  rewrite E. eauto.
Qed.

Lemma egress_components (room : Room) (egress : list Finding) :
  Configurator._check_bedroom_egress room = Ok egress ->
  Forall component_set egress.
Proof.
  rewrite check_bedroom_egress_spec. unfold component_set.
  destruct (RoomType_value_nonempty (room_type room)) as (a & s & E).
  destruct (get_all_windows room) as [|w ws].
  - intros [= <-]. repeat constructor. cbn [component no_window_finding].
    rewrite E. eauto.
  - destruct (existsb _ _); intros [= <-]; repeat constructor.
    cbn [component small_windows_finding]. rewrite E. eauto.
Qed.

Lemma thermal_components (room : Room) (project : Project) :
  Forall component_set (Configurator._check_thermal_envelope room project).
Proof.
  rewrite check_thermal_envelope_spec. apply Forall_map.
  apply Forall_forall. intros [i wall] _. unfold component_set.
  cbn [component thermal_finding append]. eauto.
Qed.

Lemma validate_room_components (room : Room) (project : Project)
  (findings : list Finding) :
  Configurator.validate_room room project = Ok findings ->
  Forall component_set findings.
Proof.
  destruct (validate_room_unfold room project) as (egress & Eeg & ->).
  intros [= <-]. apply Forall_app. split; [apply ceiling_components|].
  apply Forall_app. split; [|apply thermal_components].
  destruct (RoomType_eqb _ _); [|constructor].
  apply (egress_components room). assumption.
Qed.

(** *** The two files agree *)

Lemma api_wall_materials_eq (wall : Wall) :
  Api.calculate_wall_materials wall = Configurator.calculate_wall_materials wall.
Proof. reflexivity. Qed.

Lemma api_room_materials_eq (room : Room) :
  Api.calculate_room_materials room = Configurator.calculate_room_materials room.
Proof. reflexivity. Qed.

Lemma api_thermal_loop_eq (project : Project) (ws : list Wall) : forall i : Z,
  Api.thermal_loop project
    (Api.requirement_get Api.IECC_RVALUE_REQUIREMENTS
                         (Api.stored_climate_zone project) 20) i ws =
  Configurator.thermal_loop project
    (Configurator.requirement_get Configurator.IECC_RVALUE_REQUIREMENTS
                                  (climate_zone project) 20) i ws.
Proof.
  assert (Hreq : Api.requirement_get Api.IECC_RVALUE_REQUIREMENTS
                   (Api.stored_climate_zone project) 20 =
                 Configurator.requirement_get Configurator.IECC_RVALUE_REQUIREMENTS
                   (climate_zone project) 20).
  { unfold Api.stored_climate_zone. destruct (climate_zone project); reflexivity. }
  rewrite Hreq.
  induction ws as [|wall rest IH]; intros i; [reflexivity|].
  cbn [Api.thermal_loop Configurator.thermal_loop]. rewrite IH. reflexivity.
Qed.

Lemma api_is_bedroom_eq (room : Room) :
  String.eqb (Api.stored_room_type room) (RoomType_value BEDROOM) =
  RoomType_eqb (room_type room) BEDROOM.
Proof. unfold Api.stored_room_type. destruct (room_type room); reflexivity. Qed.

Lemma api_validate_room_eq (room : Room) (project : Project) :
  Api.validate_room room project = Configurator.validate_room room project.
Proof.
  unfold Api.validate_room, Configurator.validate_room.
  rewrite api_is_bedroom_eq.
  unfold Api._check_thermal_envelope, Configurator._check_thermal_envelope.
  rewrite api_thermal_loop_eq. reflexivity.
Qed.

(** *** The project loop *)

Lemma add_room_context_relabel (i : Z) (room : Room) (f : Finding) :
  component_set f -> Api.add_room_context i room f = relabel (i + 1) room f.
Proof.
  intros (a & s & E). unfold Api.add_room_context, relabel, Api.room_label,
    Api.stored_room_type. rewrite E. reflexivity.
Qed.

Lemma mapM_length {A B : Type} (f : A -> result B) (l : list A) :
  forall l', mapM f l = Ok l' -> List.length l' = List.length l.
Proof.
  induction l as [|a l IH]; intros l'; cbn [mapM].
  - intros [= <-]. reflexivity.
  - destruct (f a) as [b|e]; [|discriminate]. cbn [bind].
    destruct (mapM f l) as [bs|e]; [|discriminate]. cbn [bind].
    intros [= <-]. cbn [List.length]. rewrite (IH bs eq_refl). reflexivity.
Qed.

Lemma validate_room_total (room : Room) (project : Project) :
  exists findings, Api.validate_room room project = Ok findings.
Proof.
  rewrite api_validate_room_eq.
  destruct (validate_room_unfold room project) as (egress & _ & ->). eauto.
Qed.

Lemma project_loop_spec (project : Project) (rs : list Room) : forall n : nat,
  exists per,
    mapM (fun room => Api.validate_room room project) rs = Ok per /\
    Api.project_loop project (Z.of_nat n) rs =
    Ok (relabel_all (combine (map Z.of_nat (seq (S n) (List.length rs)))
                             (combine rs per))).
Proof.
  induction rs as [|room rest IH]; intros n.
  - exists []. split; reflexivity.
  - destruct (validate_room_total room project) as (fs & Efs).
    destruct (IH (S n)) as (per & Eper & Eloop).
    exists (fs :: per). cbn [mapM Api.project_loop]. rewrite Efs, Eper. cbn [bind].
    split; [reflexivity|].
    replace (Z.of_nat n + 1)%Z with (Z.of_nat (S n)) by lia.
    rewrite Eloop. cbn [bind List.length seq map combine].
    unfold relabel_all. cbn [map List.concat fst snd]. do 2 f_equal.
    apply map_ext_in. intros f Hf. 
    replace (Z.of_nat (S n)) with (Z.of_nat n + 1)%Z by lia.
    apply add_room_context_relabel.
    rewrite api_validate_room_eq in Efs.
    pose proof (validate_room_components room project fs Efs) as Hall.
    rewrite Forall_forall in Hall. apply Hall. assumption.
Qed.

End Findings.

Section Studs.

Lemma positive_cases (x : Py.float) :
  Py.fgt x (Py.flit 0) = true ->
  (exists m e, x = S754_finite false m e) \/ x = S754_infinity false.
Proof.
  unfold Py.fgt, SFltb. change (Py.flit 0) with (S754_zero false).
  destruct x as [s|[|]| |[|] m e]; cbn [SFcompare]; try discriminate; eauto.
Qed.

Lemma fdiv_nonneg_sign (x : Py.float) (my : positive) (ey : Z) :
  rounded false x ->
  Py.is_finite (Py.fdiv x (S754_finite false my ey)) = true ->
  sign_of (Py.fdiv x (S754_finite false my ey)) = false.
Proof.
  intros [| |m e Hm He] Hf.
  - reflexivity.
  - discriminate.
  - apply (rounded_finite_bounded _ _ (fdiv_finite_rounded false m e false my ey) Hf).
Qed.

(** The stud quotient of a wall of positive length is not negative. *)
Lemma stud_quotient_nonneg (wall : Wall) :
  Py.fgt (length_feet wall) (Py.flit 0) = true ->
  studs_computable wall = true ->
  sign_of (stud_quotient wall) = false.
Proof.
  unfold studs_computable, stud_quotient. intros Hpos.
  assert (Hr : rounded false (Py.fmul (length_feet wall) (Py.flit 12))).
  { rewrite flit_12.
    destruct (positive_cases _ Hpos) as [(m & e & ->)| ->].
    - apply (fmul_finite_rounded false m e false).
    - constructor. }
  rewrite stud_spacing_by_framing.
  destruct (framing_type wall); rewrite ?flit_16, ?flit_24;
    apply fdiv_nonneg_sign; assumption.
Qed.

End Studs.

(** ** The claims *)

Section Claims.

(** C1. Bedroom egress (IRC R310.1).  For every room and project,
    [validate_room] returns, and among its findings those citing
    "IRC R310.1" are: for a bedroom without any window, the single finding
    "Bedroom requires at least one egress window"; for a bedroom with
    windows, nothing when some single window has a clear opening of at least
    5.7 sq ft, and otherwise the single finding that cites the 5.7 sq ft
    threshold and the largest clear opening to two decimals; for a room that
    is not a bedroom, nothing.  Clear openings are compared window by
    window, never added.  A lone 24 in by 24 in window prints as "3.60". *)
Theorem bedroom_egress_check :
  (forall (room : Room) (project : Project),
    exists findings,
      Configurator.validate_room room project = Ok findings /\
      match room_type room with
      | BEDROOM =>
          match get_all_windows room with
          | [] =>
              filter (has_code "IRC R310.1") findings = [no_window_finding room]
          | ws =>
              if existsb meets_egress ws
              then filter (has_code "IRC R310.1") findings = []
              else exists largest,
                  Py.max (map clear_opening_sqft ws) = Ok largest /\
                  largest_of (map clear_opening_sqft ws) largest /\
                  filter (has_code "IRC R310.1") findings =
                  [small_windows_finding room largest]
          end
      | _ => filter (has_code "IRC R310.1") findings = []
      end) /\
  (forall project : Project,
    Configurator.validate_room (room_of BEDROOM [north_wall]) project =
    Ok [ {| code := "IRC R310.1";
            severity := "ERROR";
            message := "No window meets egress requirement. " ++
                       "Required: 5.7 sq ft, Largest found: 3.60 sq ft";
            component := Some "Bedroom" |} ]) /\
  (forall project : Project,
    Configurator.validate_room (room_of BEDROOM [twin_wall]) project =
    Configurator.validate_room (room_of BEDROOM [north_wall]) project) /\
  (forall w : Window,
    clear_opening_sqft w =
    Py.fmul (Py.fdiv (Py.fmul (width_inches w) (height_inches w)) (Py.flit 144))
            (Py.fdec 9 10)) /\
  Py.repr (Py.fdec 9 10) = "0.9" /\
  Py.repr (Py.fdec 57 10) = "5.7" /\
  Py.repr (clear_opening_sqft (window_of 36 48)) = "10.8" /\
  meets_egress (window_of 36 48) = true.
Proof.
  split; [|split; [|split; [|split; [reflexivity|vm_compute; repeat split]]]].
  - intros room project.
    destruct (validate_room_unfold room project) as (egress & Eeg & Ev).
    exists (Configurator._check_ceiling_height room ++
            (if RoomType_eqb (room_type room) BEDROOM then egress else []) ++
            Configurator._check_thermal_envelope room project)%list.
    split; [assumption|].
    rewrite !filter_app.
    rewrite (filter_has_code_none "IRC R310.1" "IRC R305.1" _ (ceiling_codes room))
      by reflexivity.
    rewrite (filter_has_code_none "IRC R310.1" "IECC R402.1" _
               (thermal_codes room project)) by reflexivity.
    rewrite app_nil_r. cbn [app].
    pose proof (egress_codes room egress Eeg) as Hcodes.
    rewrite check_bedroom_egress_spec in Eeg.
    destruct (room_type room); cbn [RoomType_eqb]; try reflexivity.
    rewrite (filter_has_code_all _ _ Hcodes).
    destruct (get_all_windows room) as [|w ws].
    + injection Eeg as <-. reflexivity.
    + destruct (existsb meets_egress (w :: ws)).
      * injection Eeg as <-. reflexivity.
      * injection Eeg as <-. eexists. split; [reflexivity|].
        split; [|reflexivity]. apply max_largest. reflexivity.
  - intros project.
    unfold Configurator.validate_room, Configurator._check_thermal_envelope.
    cbn [walls room_of Configurator.thermal_loop is_exterior north_wall wall_of].
    vm_compute. reflexivity.
  - intros project.
    unfold Configurator.validate_room, Configurator._check_thermal_envelope.
    cbn [walls room_of Configurator.thermal_loop is_exterior north_wall twin_wall
         wall_of].
    vm_compute. reflexivity.
Qed.

(** C2. Thermal envelope (IECC R402.1).  The required R-value is read from
    the fixed table (zones 1-3: 13, zone 4: 15, zones 5-6: 20, zones 7-8: 21;
    20 for a zone number outside the table).  The check yields one finding
    for each exterior wall whose total R-value is strictly below it, in wall
    order, with component "Wall #i (framing)" for the 1-based position [i];
    these are exactly the findings of [validate_room] that cite
    "IECC R402.1".  No float is below itself, so a wall exactly at the
    requirement passes, as do interior walls; the 20.65 assembly passes in
    zone 6 and fails in zone 7. *)
Theorem thermal_envelope_check :
  (forall zone : ClimateZone,
    Configurator.requirement_get Configurator.IECC_RVALUE_REQUIREMENTS zone 20 =
    required_r_value zone) /\
  (forall z : Z,
    Api.requirement_get Api.IECC_RVALUE_REQUIREMENTS z 20 =
    required_r_value_of_number z) /\
  (forall (room : Room) (project : Project),
    Configurator._check_thermal_envelope room project =
    map (fun iw => thermal_finding project (fst iw) (snd iw))
        (filter (fun iw =>
                   below_requirement (required_r_value (climate_zone project))
                                     (snd iw))
                (enumerate1 (walls room)))) /\
  (forall (room : Room) (project : Project),
    exists findings,
      Configurator.validate_room room project = Ok findings /\
      filter (has_code "IECC R402.1") findings =
      Configurator._check_thermal_envelope room project) /\
  (forall x : Py.float, Py.flt x x = false) /\
  (forall zone : ClimateZone,
    below_requirement (required_r_value zone)
      (layered_wall true [layer_of "Batt" (Py.flit (required_r_value zone))]) =
    false) /\
  (forall (required : Z) (ls : list MaterialLayer),
    below_requirement required (layered_wall false ls) = false) /\
  Configurator._check_thermal_envelope
    (room_of LIVING [layered_wall true exterior_layers]) (project_in ZONE_6 []) =
  [] /\
  Configurator._check_thermal_envelope
    (room_of LIVING [layered_wall false []; layered_wall true exterior_layers])
    (project_in ZONE_7 []) =
  [ {| code := "IECC R402.1";
       severity := "ERROR";
       message := "Exterior wall R-value 20.6 below required 21 " ++
                  "for Climate Zone 7";
       component := Some "Wall #2 (2x6 @ 16oc)" |} ].
Proof.
  split; [exact requirement_get_spec|].
  split; [exact api_requirement_get_spec|].
  split; [exact check_thermal_envelope_spec|].
  split.
  { intros room project.
    destruct (validate_room_unfold room project) as (egress & Eeg & Ev).
    eexists. split; [exact Ev|].
    rewrite !filter_app.
    rewrite (filter_has_code_none "IECC R402.1" "IRC R305.1" _ (ceiling_codes room))
      by reflexivity.
    rewrite (filter_has_code_all _ _ (thermal_codes room project)).
    cbn [app].
    destruct (RoomType_eqb _ _); [|reflexivity].
    rewrite (filter_has_code_none "IECC R402.1" "IRC R310.1" _
               (egress_codes room egress Eeg)) by reflexivity.
    reflexivity. }
  split; [exact flt_irrefl|].
  split; [intros zone; destruct zone; vm_compute; reflexivity|].
  split; [reflexivity|].
  split; vm_compute; reflexivity.
Qed.

(** C5. Ceiling height (IRC R305.1).  Among the findings of [validate_room],
    those citing "IRC R305.1" are a single one when the ceiling height is
    below 7.0 and none otherwise; its message gives the height as Python
    prints it and the 7.0 ft minimum, its component is the room type.  A
    ceiling of exactly 7.0 ft passes; one of 6.5 ft is reported. *)
Theorem ceiling_height_check :
  (forall (room : Room) (project : Project),
    exists findings,
      Configurator.validate_room room project = Ok findings /\
      filter (has_code "IRC R305.1") findings =
      if Py.flt (ceiling_height_feet room) (Py.flit 7)
      then [ {| code := "IRC R305.1";
                severity := "ERROR";
                message := "Ceiling height " ++
                           Py.repr (ceiling_height_feet room) ++
                           "ft is below minimum 7.0ft";
                component := Some (RoomType_value (room_type room)) |} ]
      else []) /\
  Py.flt (Py.flit 7) (Py.flit 7) = false /\
  Configurator._check_ceiling_height (low_room KITCHEN []) =
  [ {| code := "IRC R305.1";
       severity := "ERROR";
       message := "Ceiling height 6.5ft is below minimum 7.0ft";
       component := Some "Kitchen" |} ].
Proof.
  split; [|split; vm_compute; reflexivity].
  intros room project.
  destruct (validate_room_unfold room project) as (egress & Eeg & Ev).
  eexists. split; [exact Ev|].
  rewrite !filter_app.
  rewrite (filter_has_code_all _ _ (ceiling_codes room)).
  rewrite (filter_has_code_none "IRC R305.1" "IECC R402.1" _
             (thermal_codes room project)) by reflexivity.
  replace (filter (has_code "IRC R305.1")
             (if RoomType_eqb (room_type room) BEDROOM then egress else []))
    with (@nil Finding).
  - rewrite !app_nil_r. apply check_ceiling_height_spec.
  - destruct (RoomType_eqb _ _); [|reflexivity].
    symmetry.
    apply (filter_has_code_none "IRC R305.1" "IRC R310.1" _
             (egress_codes room egress Eeg)). reflexivity.
Qed.

(** C7. [validate_project] visits the rooms in order.  Each room's findings
    are those of [validate_room]: the ceiling check, then the egress check
    for a bedroom, then the thermal check.  Each finding's component becomes
    "Room i (room type) - original component" for the 1-based position [i]
    of the room (every room-level check sets a component); code, severity and
    message are kept.  The result is the concatenation over the rooms. *)
Theorem validate_project_relabels :
  (forall (room : Room) (project : Project),
    exists egress,
      Api._check_bedroom_egress room = Ok egress /\
      Api.validate_room room project =
      Ok (Api._check_ceiling_height room ++
          (if RoomType_eqb (room_type room) BEDROOM then egress else []) ++
          Api._check_thermal_envelope room project)%list) /\
  (forall project : Project,
    exists per_room : list (list Finding),
      mapM (fun room => Api.validate_room room project) (rooms project) =
      Ok per_room /\
      Forall (Forall component_set) per_room /\
      Api.validate_project project =
      Ok (relabel_all (enumerate1 (combine (rooms project) per_room)))) /\
  (forall (i : Z) (room : Room) (c s m : string) (a : ascii) (rest : string),
    Api.add_room_context i room
      {| code := c; severity := s; message := m;
         component := Some (String a rest) |} =
    {| code := c; severity := s; message := m;
       component := Some (("Room " ++ Py.str_of_int (i + 1) ++ " (" ++
                           RoomType_value (room_type room) ++ ")") ++
                          " - " ++ String a rest) |}) /\
  (forall (i : Z) (room : Room) (c s m : string),
    Api.add_room_context i room
      {| code := c; severity := s; message := m; component := None |} =
    {| code := c; severity := s; message := m;
       component := Some ("Room " ++ Py.str_of_int (i + 1) ++ " (" ++
                          RoomType_value (room_type room) ++ ")") |}) /\
  Api.validate_project
    (project_of [low_room KITCHEN [north_wall]; room_of BATHROOM [north_wall]]) =
  Ok [ {| code := "IRC R305.1";
          severity := "ERROR";
          message := "Ceiling height 6.5ft is below minimum 7.0ft";
          component := Some "Room 1 (Kitchen) - Kitchen" |} ].
Proof.
  split; [|split; [|split; [reflexivity|split; [reflexivity|vm_compute; reflexivity]]]].
  - intros room project.
    destruct (validate_room_unfold room project) as (egress & Eeg & Ev).
    exists egress. split; [exact Eeg|].
    rewrite api_validate_room_eq. exact Ev.
  - intros project.
    destruct (project_loop_spec project (rooms project) 0) as (per & Eper & Eloop).
    exists per. split; [exact Eper|]. split.
    + clear Eloop. revert per Eper.
      induction (rooms project) as [|room rest IH]; intros per; cbn [mapM].
      * intros [= <-]. constructor.
      * destruct (Api.validate_room room project) as [fs|e] eqn:Efs; [|discriminate].
        cbn [bind].
        destruct (mapM _ rest) as [per'|e]; [|discriminate]. cbn [bind].
        intros [= <-]. constructor; [|apply IH; reflexivity].
        rewrite api_validate_room_eq in Efs.
        apply (validate_room_components room project fs Efs).
    + unfold Api.validate_project, enumerate1.
      change 0%Z with (Z.of_nat 0). rewrite Eloop.
      pose proof (mapM_length _ _ _ Eper) as Hlen.
      rewrite length_combine, Hlen, Nat.min_id. reflexivity.
Qed.

(** C10. The two files agree: on the same wall, room and project, the
    material calculators of [src/api.py] and of
    [src/parametric_building_configurator.py] return the same dictionaries
    (or raise the same exception), and the two [validate_room] return the
    same findings in the same order. *)
Theorem api_agrees_with_configurator :
  (forall wall : Wall,
    Api.calculate_wall_materials wall =
    Configurator.calculate_wall_materials wall) /\
  (forall room : Room,
    Api.calculate_room_materials room =
    Configurator.calculate_room_materials room) /\
  (forall (room : Room) (project : Project),
    Api.validate_room room project = Configurator.validate_room room project).
Proof.
  split; [exact api_wall_materials_eq|].
  split; [exact api_room_materials_eq|exact api_validate_room_eq].
Qed.

(** C3, at its failing input.  The wall of 1e308 ft meets every field
    constraint, yet the calculator returns no quantities for it: twelve
    times its length is infinite and [int] raises [OverflowError]. *)
Lemma wall_framing_overflow :
  Api.wall_valid huge_wall = true /\
  Py.fmul (length_feet huge_wall) (Py.flit 12) = S754_infinity false /\
  Configurator.calculate_wall_materials huge_wall = Raise OverflowError.
Proof. vm_compute. repeat split. Qed.

(** C3, amended.  For every wall that meets the field constraints and whose
    stud quotient [length_feet * 12 / stud_spacing_inches] is finite, the
    calculator returns quantities with
    [studs_count = floor (quotient) + 1 + 3],
    [stud_linear_feet = studs_count * height_feet],
    [top_plate_lf = length_feet * 2] and [bottom_plate_lf = length_feet];
    the spacing is 16 for a "16oc" framing and 24 for a "24oc" framing. *)
Theorem wall_framing_quantities (wall : Wall) :
  Api.wall_valid wall = true ->
  studs_computable wall = true ->
  let studs := (Qfloor (Py.to_Q (stud_quotient wall)) + 1 + 3)%Z in
  Configurator.stud_spacing_inches wall =
  match framing_type wall with
  | STUD_2x4_16OC | STUD_2x6_16OC => 16
  | STUD_2x4_24OC | STUD_2x6_24OC => 24
  end /\
  exists d,
    Configurator.calculate_wall_materials wall = Ok d /\
    lookup "studs_count" d = Some (Py.Int studs) /\
    lookup "stud_linear_feet" d =
    Some (Py.Float (Py.fmul (Py.flit studs) (height_feet wall))) /\
    lookup "top_plate_lf" d =
    Some (Py.Float (Py.fmul (length_feet wall) (Py.flit 2))) /\
    lookup "bottom_plate_lf" d = Some (Py.Float (length_feet wall)).
Proof.
  intros Hvalid Hc studs. split; [apply stud_spacing_by_framing|].
  assert (Hpos : Py.fgt (length_feet wall) (Py.flit 0) = true).
  { unfold Api.wall_valid in Hvalid.
    repeat (apply andb_prop in Hvalid as [Hvalid _]). exact Hvalid. }
  destruct (calculate_wall_materials_total wall Hc) as (n & En & Ed).
  rewrite (int_of_float_floor _ Hc (stud_quotient_nonneg wall Hpos Hc)) in En.
  injection En as <-.
  eexists. split; [exact Ed|]. repeat split.
Qed.

(** The amended C3 at the 12 ft partition: 12 * 12 / 16 = 9 and 13 studs. *)
Lemma wall_framing_quantities_witness :
  Api.wall_valid north_wall = true /\
  studs_computable north_wall = true /\
  exists d,
    Configurator.calculate_wall_materials north_wall = Ok d /\
    lookup "studs_count" d = Some (Py.Int 13) /\
    lookup "stud_linear_feet" d = Some (Py.Float (Py.flit 104)) /\
    lookup "top_plate_lf" d = Some (Py.Float (Py.flit 24)) /\
    lookup "bottom_plate_lf" d = Some (Py.Float (Py.flit 12)).
Proof.
  split; [vm_compute; reflexivity|]. split; [vm_compute; reflexivity|].
  exact (proj2 (wall_framing_quantities north_wall eq_refl eq_refl)).
Defined.

(** C4. Aggregation.  The materials of a room are the field-by-field sums,
    from 0, of the materials of its walls, and the materials of a project
    those of its rooms: each side raises when a child raises.  A returned
    dictionary has exactly the eight keys, in the order of the literal. *)
Theorem aggregation_is_field_sum :
  (forall room : Room,
    Configurator.calculate_room_materials room =
    (parts <- mapM Configurator.calculate_wall_materials (walls room) ;;
     field_sums parts)) /\
  (forall project : Project,
    Api.calculate_project_materials project =
    (parts <- mapM Api.calculate_room_materials (rooms project) ;;
     field_sums parts)) /\
  (forall room : Room,
    match Configurator.calculate_room_materials room with
    | Ok d => keys d = FIELDS
    | Raise _ => True
    end) /\
  (forall project : Project,
    match Api.calculate_project_materials project with
    | Ok d => keys d = FIELDS
    | Raise _ => True
    end).
Proof.
  assert (Hroom : forall (room : Room) (d : dict),
             Api.calculate_room_materials room = Ok d -> takeoff_shaped d).
  { intros room d.
    apply (accumulate_shaped _ calculate_wall_materials_shaped).
    apply zero_totals_shaped. }
  split; [|split; [|split]].
  - intros room.
    exact (accumulate_field_sums_from _ calculate_wall_materials_shaped
             (walls room) zero_totals zero_totals_shaped).
  - intros project.
    exact (accumulate_field_sums_from _ Hroom
             (rooms project) zero_totals zero_totals_shaped).
  - intros room.
    destruct (Configurator.calculate_room_materials room) as [d|e] eqn:E;
      [|exact I].
    apply (Hroom room d E).
  - intros project.
    destruct (Api.calculate_project_materials project) as [d|e] eqn:E; [|exact I].
    apply (accumulate_shaped _ Hroom _ zero_totals d zero_totals_shaped E).
Qed.

(** C6, at its failing input.  For the wall of 1e308 ft the calculator raises
    before any area is stored. *)
Lemma wall_areas_overflow :
  studs_computable huge_wall = false /\
  Configurator.calculate_wall_materials huge_wall = Raise OverflowError.
Proof. vm_compute. split; reflexivity. Qed.

(** C6, amended.  For every wall whose stud quotient is finite, the
    calculator returns quantities with
    [sheathing_sqft = drywall_sqft = length_feet * height_feet],
    [insulation_sqft = net_area_sqft], the gross area less the sum of the
    window areas, and [gravel_cubic_yards = (length_feet * 2.0 * 0.5) / 27.0]
    for an exterior wall, [0.0] for an interior one. *)
Theorem wall_area_quantities (wall : Wall) :
  studs_computable wall = true ->
  exists d,
    Configurator.calculate_wall_materials wall = Ok d /\
    lookup "sheathing_sqft" d =
    Some (Py.Float (Py.fmul (length_feet wall) (height_feet wall))) /\
    lookup "drywall_sqft" d =
    Some (Py.Float (Py.fmul (length_feet wall) (height_feet wall))) /\
    lookup "insulation_sqft" d = Some (Py.Float (net_area_sqft wall)) /\
    net_area_sqft wall =
    Py.fsub (Py.fmul (length_feet wall) (height_feet wall))
            (Py.fsum (map window_area_sqft (windows wall))) /\
    lookup "gravel_cubic_yards" d =
    Some (Py.Float
            (if is_exterior wall
             then Py.fdiv (Py.fmul (Py.fmul (length_feet wall) (Py.flit 2))
                                   (Py.fdec 5 10))
                          (Py.flit 27)
             else S754_zero false)).
Proof.
  intros Hc.
  destruct (calculate_wall_materials_total wall Hc) as (n & _ & Ed).
  eexists. split; [exact Ed|]. repeat split.
Qed.

(** The amended C6 at the 12 ft exterior wall: 96 sq ft and 12/27 cu yd. *)
Lemma wall_area_quantities_witness :
  studs_computable street_wall = true /\
  exists d,
    Configurator.calculate_wall_materials street_wall = Ok d /\
    lookup "sheathing_sqft" d = Some (Py.Float (Py.flit 96)) /\
    lookup "drywall_sqft" d = Some (Py.Float (Py.flit 96)) /\
    lookup "insulation_sqft" d = Some (Py.Float (Py.flit 96)) /\
    net_area_sqft street_wall = Py.flit 96 /\
    lookup "gravel_cubic_yards" d = Some (Py.Float (Py.fdec 12 27)).
Proof.
  split; [vm_compute; reflexivity|].
  exact (wall_area_quantities street_wall eq_refl).
Defined.

(** C8, at its failing input.  The project of one room with the wall of
    1e308 ft meets every constraint of the data model, and the material
    calculation raises [OverflowError] on it. *)
Lemma project_materials_overflow :
  Api.project_valid (project_of [room_of LIVING [huge_wall]]) = true /\
  Api.calculate_project_materials (project_of [room_of LIVING [huge_wall]]) =
  Raise OverflowError.
Proof. vm_compute. split; reflexivity. Qed.

(** C8, amended.  For every project that meets the constraints of the data
    model and in which every wall has a finite stud quotient, the material
    calculation returns a dictionary with the eight keys and the validation
    returns a list of findings; neither raises. *)
Theorem operations_return (project : Project) :
  Api.project_valid project = true ->
  all_studs_computable project = true ->
  (exists d, Api.calculate_project_materials project = Ok d /\ keys d = FIELDS) /\
  (exists findings, Api.validate_project project = Ok findings).
Proof.
  intros _ Hc.
  assert (Hroom : forall (room : Room) (d : dict),
             Api.calculate_room_materials room = Ok d -> takeoff_shaped d).
  { intros room d.
    apply (accumulate_shaped _ calculate_wall_materials_shaped).
    apply zero_totals_shaped. }
  split.
  - assert (Hd : exists d, Api.calculate_project_materials project = Ok d).
    { apply (accumulate_total _ Hroom); [apply zero_totals_shaped|].
      unfold all_studs_computable in Hc. rewrite forallb_forall in Hc.
      apply Forall_forall. intros room Hin. specialize (Hc room Hin).
      apply (accumulate_total _ calculate_wall_materials_shaped);
        [apply zero_totals_shaped|].
      rewrite forallb_forall in Hc.
      apply Forall_forall. intros wall Hw.
      destruct (calculate_wall_materials_total wall (Hc wall Hw)) as (n & _ & E).
      eexists. exact E. }
    destruct Hd as (d & Ed). exists d. split; [exact Ed|].
    apply (accumulate_shaped _ Hroom _ zero_totals d zero_totals_shaped Ed).
  - destruct (project_loop_spec project (rooms project) 0) as (per & _ & Eloop).
    eexists. exact Eloop.
Qed.

(** The amended C8 at a one-bedroom project. *)
Lemma operations_return_witness :
  Api.project_valid (project_of [room_of BEDROOM [north_wall; street_wall]]) = true /\
  all_studs_computable (project_of [room_of BEDROOM [north_wall; street_wall]]) = true /\
  (exists d,
     Api.calculate_project_materials
       (project_of [room_of BEDROOM [north_wall; street_wall]]) = Ok d /\
     keys d = FIELDS) /\
  (exists findings,
     Api.validate_project
       (project_of [room_of BEDROOM [north_wall; street_wall]]) = Ok findings).
Proof.
  split; [vm_compute; reflexivity|]. split; [vm_compute; reflexivity|].
  exact (operations_return (project_of [room_of BEDROOM [north_wall; street_wall]])
           eq_refl eq_refl).
Defined.

(** C9. A wall can meet every field constraint while its windows cover more
    than its gross area: the 4 ft by 8 ft wall with a 60 in by 120 in window
    has 32 sq ft of wall and 50 sq ft of window, so its net area, and the
    [insulation_sqft] the calculator returns, are -18 sq ft. *)
Theorem window_area_can_exceed_wall :
  exists wall : Wall,
    Api.wall_valid wall = true /\
    Py.fgt (Py.fsum (map window_area_sqft (windows wall))) (area_sqft wall) = true /\
    Py.flt (net_area_sqft wall) (Py.flit 0) = true /\
    exists d,
      Configurator.calculate_wall_materials wall = Ok d /\
      lookup "insulation_sqft" d = Some (Py.Float (Py.flit (-18))) /\
      Py.flt (Py.flit (-18)) (Py.flit 0) = true.
Proof.
  exists glazed_wall. vm_compute. repeat split.
  eexists. repeat split.
Qed.

End Claims.

(** ** Further facts about floats *)

Section MoreFloatFacts.
Local Open Scope Z_scope.

Lemma flt_rank (x y : Py.float) :
  Py.is_nan x = false -> Py.is_nan y = false ->
  (Py.flt x y = true <-> rank_lt (rank x) (rank y)).
Proof.
  unfold Py.flt, SFltb.
  destruct x as [sx|sx| |sx mx ex], y as [sy|sy| |sy my ey];
    try discriminate; intros _ _;
    try (destruct sx); try (destruct sy); cbn [SFcompare rank rank_lt];
    try (split; [intros _; lia | reflexivity]);
    try (split; [discriminate | lia]).
  - change (PosDef.Pos.compare_cont Eq mx my) with (Pos.compare mx my).
    destruct (Z.compare_spec ex ey) as [H|H|H].
    + subst. destruct (Pos.compare_spec mx my) as [H|H|H]; cbn [CompOpp];
        (split; [try discriminate; intros _; lia | try reflexivity; lia]).
    + split; [discriminate | lia].
    + split; [intros _; lia | reflexivity].
  - change (PosDef.Pos.compare_cont Eq mx my) with (Pos.compare mx my).
    destruct (Z.compare_spec ex ey) as [H|H|H].
    + subst. destruct (Pos.compare_spec mx my) as [H|H|H];
        (split; [try discriminate; intros _; lia | try reflexivity; lia]).
    + split; [intros _; lia | reflexivity].
    + split; [discriminate | lia].
Qed.

Lemma flt_not_nan (x y : Py.float) :
  Py.flt x y = true -> Py.is_nan x = false /\ Py.is_nan y = false.
Proof.
  unfold Py.flt, SFltb.
  destruct x as [sx|sx| |sx mx ex], y as [sy|sy| |sy my ey];
    cbn [SFcompare Py.is_nan]; try discriminate; auto.
Qed.

Lemma fle_not_nan (x y : Py.float) :
  Py.fle x y = true -> Py.is_nan x = false /\ Py.is_nan y = false.
Proof.
  unfold Py.fle, SFleb.
  destruct x as [sx|sx| |sx mx ex], y as [sy|sy| |sy my ey];
    cbn [SFcompare Py.is_nan]; try discriminate; auto.
Qed.

Lemma flt_trans (x y z : Py.float) :
  Py.flt x y = true -> Py.flt y z = true -> Py.flt x z = true.
Proof.
  intros Hxy Hyz.
  destruct (flt_not_nan _ _ Hxy) as [Hx Hy].
  destruct (flt_not_nan _ _ Hyz) as [_ Hz].
  apply flt_rank in Hxy; try assumption. apply flt_rank in Hyz; try assumption.
  apply flt_rank; try assumption.
  destruct (rank x) as [[a1 a2] a3], (rank y) as [[b1 b2] b3],
    (rank z) as [[c1 c2] c3].
  unfold rank_lt in *. lia.
Qed.

(** [x <= y] and [y < x] exclude each other. *)
Lemma fle_flt_false (x y : Py.float) :
  Py.fle x y = true -> Py.flt y x = false.
Proof.
  intros Hle. destruct (fle_not_nan _ _ Hle) as [Hx Hy].
  apply fle_rank in Hle; try assumption.
  destruct (Py.flt y x) eqn:Hlt; [|reflexivity].
  apply flt_rank in Hlt; try assumption.
  destruct (rank x) as [[a1 a2] a3], (rank y) as [[b1 b2] b3].
  unfold rank_le, rank_lt in *. lia.
Qed.

Lemma fmul_comm (x y : Py.float) : Py.fmul x y = Py.fmul y x.
Proof.
  unfold Py.fmul, SFmul.
  destruct x as [sx|sx| |sx mx ex], y as [sy|sy| |sy my ey];
    try reflexivity; rewrite ?(xorb_comm sx sy); try reflexivity.
  rewrite (Pos.mul_comm mx my), (Z.add_comm ex ey). reflexivity.
Qed.

(** Subtracting the [0.0] an empty sum yields changes nothing. *)
Lemma fsub_zero_r (x : Py.float) : Py.fsub x Py.fzero = x.
Proof. destruct x as [[|]|[|]| |s m e]; reflexivity. Qed.

(** A positive float times a positive float, and a rounded non-negative
    float divided or multiplied by a positive finite one, are rounded and
    non-negative: never NaN. *)
Lemma fmul_positive_rounded (x y : Py.float) :
  Py.fgt x (Py.flit 0) = true -> Py.fgt y (Py.flit 0) = true ->
  rounded false (Py.fmul x y).
Proof.
  intros Hx Hy.
  destruct (positive_cases _ Hx) as [(mx & ex & ->)| ->];
    destruct (positive_cases _ Hy) as [(my & ey & ->)| ->].
  - apply (fmul_finite_rounded false mx ex false my ey).
  - constructor.
  - constructor.
  - constructor.
Qed.

Lemma fdiv_rounded (x : Py.float) (my : positive) (ey : Z) :
  rounded false x -> rounded false (Py.fdiv x (S754_finite false my ey)).
Proof.
  intros [| |m e Hm He].
  - constructor.
  - constructor.
  - apply (fdiv_finite_rounded false m e false my ey).
Qed.

Lemma fmul_rounded (x : Py.float) (my : positive) (ey : Z) :
  rounded false x -> rounded false (Py.fmul x (S754_finite false my ey)).
Proof.
  intros [| |m e Hm He].
  - constructor.
  - constructor.
  - apply (fmul_finite_rounded false m e false my ey).
Qed.

Lemma rounded_not_nan (s : bool) (x : Py.float) :
  rounded s x -> Py.is_nan x = false.
Proof. intros [| |m e Hm He]; reflexivity. Qed.

Lemma stud_quotient_rounded (wall : Wall) :
  Py.fgt (length_feet wall) (Py.flit 0) = true ->
  rounded false (stud_quotient wall).
Proof.
  intros Hpos. unfold stud_quotient.
  assert (Hr : rounded false (Py.fmul (length_feet wall) (Py.flit 12))).
  { rewrite flit_12.
    destruct (positive_cases _ Hpos) as [(m & e & ->)| ->].
    - apply (fmul_finite_rounded false m e false).
    - constructor. }
  rewrite stud_spacing_by_framing.
  destruct (framing_type wall); rewrite ?flit_16, ?flit_24;
    apply fdiv_rounded; assumption.
Qed.

Lemma wall_valid_length (wall : Wall) :
  Api.wall_valid wall = true -> Py.fgt (length_feet wall) (Py.flit 0) = true.
Proof.
  unfold Api.wall_valid. intros H.
  repeat (apply andb_prop in H as [H _]). exact H.
Qed.

End MoreFloatFacts.

(** ** Further properties of the material calculator *)

Section MoreMaterials.
Local Open Scope Z_scope.

Lemma wall_studs_of_materials (wall : Wall) (d : dict) :
  Configurator.calculate_wall_materials wall = Ok d ->
  exists n, wall_studs wall = Ok n /\
            dict_get "studs_count" d (Py.Int 0) = Py.Int n /\
            lookup "studs_count" d = Some (Py.Int n).
Proof.
  rewrite calculate_wall_materials_unfold. unfold wall_studs.
  destruct (Py.int_of_float _) as [n|e]; [|discriminate]. cbn [bind].
  destruct (Py.mul_int_float _ _) as [x|e]; [|discriminate]. cbn [bind].
  intros [= <-]. exists (n + 1 + 3). repeat split.
Qed.

Lemma wall_materials_computable (wall : Wall) (d : dict) :
  Configurator.calculate_wall_materials wall = Ok d ->
  studs_computable wall = true.
Proof.
  rewrite calculate_wall_materials_unfold. unfold studs_computable.
  destruct (stud_quotient wall) as [s|s| |s m e]; try reflexivity; discriminate.
Qed.

Lemma wall_studs_valid (wall : Wall) (n : Z) :
  Api.wall_valid wall = true -> wall_studs wall = Ok n -> 4 <= n.
Proof.
  intros Hv. unfold wall_studs.
  pose proof (stud_quotient_rounded wall (wall_valid_length wall Hv)) as Hr.
  destruct Hr as [| |m e Hm He]; cbn [Py.int_of_float bind cond_Zopp].
  - intros [= <-]. lia.
  - discriminate.
  - intros [= <-]. pose proof (Z.shiftl_nonneg (Zpos m) e). lia.
Qed.

Lemma accumulate_children_ok {A : Type} (f : A -> result dict)
  (children : list A) : forall totals d : dict,
  accumulate f children totals = Ok d ->
  Forall (fun c => exists part, f c = Ok part) children.
Proof.
  induction children as [|c rest IH]; intros totals d; cbn [accumulate].
  - constructor.
  - destruct (f c) as [part|e] eqn:Ec; [|discriminate]. cbn [bind].
    destruct (add_into totals part) as [totals'|e]; [|discriminate]. cbn [bind].
    intros H. constructor; [eauto|]. apply (IH totals' d H).
Qed.

Lemma mapM_ok_iff {A B : Type} (f : A -> result B) (l : list A) :
  (exists l', mapM f l = Ok l') <-> Forall (fun a => exists b, f a = Ok b) l.
Proof.
  induction l as [|a l IH]; cbn [mapM].
  - split; [constructor|eauto].
  - split.
    + intros (l' & H). destruct (f a) as [b|e] eqn:Ea; [|discriminate].
      cbn [bind] in H. destruct (mapM f l) as [bs|e]; [|discriminate].
      constructor; [eauto|]. apply IH. eauto.
    + intros H. inversion H as [|? ? (b & Eb) Hl]; subst.
      apply IH in Hl as (bs & Ebs). rewrite Eb, Ebs. cbn [bind]. eauto.
Qed.

Lemma room_materials_shaped (room : Room) (d : dict) :
  Api.calculate_room_materials room = Ok d -> takeoff_shaped d.
Proof.
  apply (accumulate_shaped _ calculate_wall_materials_shaped).
  apply zero_totals_shaped.
Qed.

Lemma room_materials_ok_iff (room : Room) :
  (exists d, Configurator.calculate_room_materials room = Ok d) <->
  forallb studs_computable (walls room) = true.
Proof.
  rewrite forallb_forall. split.
  - intros (d & Hd) wall Hin.
    pose proof (accumulate_children_ok _ _ _ _ Hd) as Hall.
    rewrite Forall_forall in Hall. destruct (Hall wall Hin) as (part & Hp).
    apply (wall_materials_computable wall part Hp).
  - intros Hall.
    apply (accumulate_total _ calculate_wall_materials_shaped);
      [apply zero_totals_shaped|].
    apply Forall_forall. intros wall Hin.
    destruct (calculate_wall_materials_total wall (Hall wall Hin)) as (n & _ & E).
    eauto.
Qed.

Lemma field_sums_lookup (parts : list dict) (d : dict) :
  field_sums parts = Ok d ->
  forall k, In k FIELDS ->
  exists v, lookup k d = Some v /\
            sum_from (Py.Int 0) (map (fun p => dict_get k p (Py.Int 0)) parts) = Ok v.
Proof.
  unfold field_sums, FIELDS. cbn [mapM].
  repeat match goal with
         | |- context [sum_from (Py.Int 0) (map ?g parts)] =>
             destruct (sum_from (Py.Int 0) (map g parts)) eqn:?;
             cbn [bind]; [|discriminate]
         end.
  intros [= <-] k Hin. cbn [In] in Hin.
  repeat (destruct Hin as [<-|Hin]; [eexists; split; [reflexivity|assumption]|]).
  contradiction.
Qed.

Lemma sum_from_ints (ns : list Z) : forall a : Z,
  sum_from (Py.Int a) (map Py.Int ns) = Ok (Py.Int (a + fold_right Z.add 0 ns)).
Proof.
  induction ns as [|n ns IH]; intros a; cbn [map sum_from fold_right Py.add bind].
  - f_equal. f_equal. lia.
  - rewrite IH. f_equal. f_equal. lia.
Qed.

Lemma mapM_wall_studs (ws : list Wall) : forall parts : list dict,
  mapM Configurator.calculate_wall_materials ws = Ok parts ->
  exists ns, mapM wall_studs ws = Ok ns /\
             map (fun p => dict_get "studs_count" p (Py.Int 0)) parts =
             map Py.Int ns.
Proof.
  induction ws as [|w ws IH]; intros parts; cbn [mapM].
  - intros [= <-]. exists []. split; reflexivity.
  - destruct (Configurator.calculate_wall_materials w) as [part|e] eqn:Ew;
      [|discriminate]. cbn [bind].
    destruct (mapM _ ws) as [rest|e]; [|discriminate]. cbn [bind].
    intros [= <-].
    destruct (wall_studs_of_materials w part Ew) as (n & En & Eg & _).
    destruct (IH rest eq_refl) as (ns & Ens & Emap).
    exists (n :: ns). rewrite En, Ens. cbn [bind map]. rewrite Eg, Emap.
    split; reflexivity.
Qed.

Lemma room_studs_sum (room : Room) (d : dict) :
  Configurator.calculate_room_materials room = Ok d ->
  exists ns, mapM wall_studs (walls room) = Ok ns /\
             lookup "studs_count" d = Some (Py.Int (fold_right Z.add 0 ns)).
Proof.
  intros Hd.
  pose proof (accumulate_field_sums_from _ calculate_wall_materials_shaped
                (walls room) zero_totals zero_totals_shaped) as Heq.
  change (accumulate Configurator.calculate_wall_materials (walls room) zero_totals)
    with (Configurator.calculate_room_materials room) in Heq.
  rewrite Hd in Heq.
  destruct (mapM Configurator.calculate_wall_materials (walls room))
    as [parts|e] eqn:Eparts; [|discriminate]. cbn [bind] in Heq.
  rewrite <- field_sums_from_zero in Heq. symmetry in Heq.
  destruct (field_sums_lookup parts d Heq "studs_count") as (v & Hv & Hsum).
  { left. reflexivity. }
  destruct (mapM_wall_studs _ _ Eparts) as (ns & Ens & Emap).
  exists ns. split; [assumption|].
  rewrite Emap, sum_from_ints in Hsum. injection Hsum as <-.
  rewrite Hv. reflexivity.
Qed.

End MoreMaterials.

Section MaterialOutcomes.
Local Open Scope Z_scope.

Lemma wall_materials_by_quotient (wall : Wall) :
  match stud_quotient wall with
  | S754_nan =>
      Configurator.calculate_wall_materials wall = Raise ValueError
  | S754_infinity _ =>
      Configurator.calculate_wall_materials wall = Raise OverflowError
  | q =>
      exists n,
        Py.int_of_float q = Ok n /\
        Configurator.calculate_wall_materials wall =
        Ok (wall_takeoff wall (n + 1 + 3)
              (Py.fmul (Py.flit (n + 1 + 3)) (height_feet wall)))
  end.
Proof.
  destruct (stud_quotient wall) as [s|s| |s m e] eqn:E.
  - assert (Hc : studs_computable wall = true)
      by (unfold studs_computable; rewrite E; reflexivity).
    destruct (calculate_wall_materials_total wall Hc) as (n & En & Ed).
    rewrite E in En. eauto.
  - rewrite calculate_wall_materials_unfold, E. reflexivity.
  - rewrite calculate_wall_materials_unfold, E. reflexivity.
  - assert (Hc : studs_computable wall = true)
      by (unfold studs_computable; rewrite E; reflexivity).
    destruct (calculate_wall_materials_total wall Hc) as (n & En & Ed).
    rewrite E in En. eauto.
Qed.

(** X1. What [calculate_wall_materials] does is decided by the stud quotient
    alone: a NaN quotient raises [ValueError], an infinite one raises
    [OverflowError], and any other quotient yields the full dictionary; the
    conversion of the stud count back to a float never overflows. *)
Theorem wall_materials_outcome (wall : Wall) :
  match stud_quotient wall with
  | S754_nan =>
      Configurator.calculate_wall_materials wall = Raise ValueError
  | S754_infinity _ =>
      Configurator.calculate_wall_materials wall = Raise OverflowError
  | q =>
      exists n,
        Py.int_of_float q = Ok n /\
        Configurator.calculate_wall_materials wall =
        Ok (wall_takeoff wall (n + 1 + 3)
              (Py.fmul (Py.flit (n + 1 + 3)) (height_feet wall)))
  end.
Proof. exact (wall_materials_by_quotient wall). Qed.

(** X2. On a wall that meets the field constraints the calculator never
    raises [ValueError]: it raises [OverflowError] or returns a dictionary
    whose [studs_count] is an integer of at least 4 (one stud and the three
    plates). *)
Theorem valid_wall_studs_at_least_four (wall : Wall) :
  Api.wall_valid wall = true ->
  Configurator.calculate_wall_materials wall = Raise OverflowError \/
  exists d n,
    Configurator.calculate_wall_materials wall = Ok d /\
    lookup "studs_count" d = Some (Py.Int n) /\
    4 <= n.
Proof.
  intros Hv.
  pose proof (stud_quotient_rounded wall (wall_valid_length wall Hv)) as Hr.
  pose proof (wall_materials_by_quotient wall) as Ho.
  destruct Hr as [| |m e Hm He].
  - right. destruct Ho as (n & En & Ed). exists (wall_takeoff wall (n + 1 + 3)
      (Py.fmul (Py.flit (n + 1 + 3)) (height_feet wall))), (n + 1 + 3).
    split; [exact Ed|]. split; [reflexivity|].
    cbn [Py.int_of_float] in En. injection En as <-. lia.
  - left. exact Ho.
  - right. destruct Ho as (n & En & Ed). exists (wall_takeoff wall (n + 1 + 3)
      (Py.fmul (Py.flit (n + 1 + 3)) (height_feet wall))), (n + 1 + 3).
    split; [exact Ed|]. split; [reflexivity|].
    cbn [Py.int_of_float cond_Zopp] in En. injection En as <-.
    pose proof (Z.shiftl_nonneg (Zpos m) e). lia.
Qed.

Lemma valid_wall_studs_at_least_four_witness :
  Api.wall_valid north_wall = true /\
  (Configurator.calculate_wall_materials north_wall = Raise OverflowError \/
   exists d n,
     Configurator.calculate_wall_materials north_wall = Ok d /\
     lookup "studs_count" d = Some (Py.Int n) /\
     4 <= n).
Proof.
  split; [vm_compute; reflexivity|].
  exact (valid_wall_studs_at_least_four north_wall eq_refl).
Defined.

(** X3. A wall without windows has a net area equal to its gross area,
    whatever its dimensions (NaN, infinities and signed zeros included), so
    the calculator returns the same [insulation_sqft] as [sheathing_sqft]
    for it. *)
Theorem windowless_insulation_is_sheathing (wall : Wall) :
  windows wall = [] ->
  net_area_sqft wall = area_sqft wall /\
  match Configurator.calculate_wall_materials wall with
  | Ok d => lookup "insulation_sqft" d = lookup "sheathing_sqft" d
  | Raise _ => True
  end.
Proof.
  intros Hw.
  assert (Hnet : net_area_sqft wall = area_sqft wall).
  { unfold net_area_sqft. rewrite Hw. apply fsub_zero_r. }
  split; [exact Hnet|].
  rewrite calculate_wall_materials_unfold.
  destruct (Py.int_of_float _) as [n|e]; [|exact I]. cbn [bind].
  destruct (Py.mul_int_float _ _) as [x|e]; [|exact I]. cbn [bind].
  unfold wall_takeoff. cbn. rewrite Hnet. reflexivity.
Qed.

Lemma windowless_insulation_is_sheathing_witness :
  windows street_wall = [] /\
  net_area_sqft street_wall = area_sqft street_wall /\
  match Configurator.calculate_wall_materials street_wall with
  | Ok d => lookup "insulation_sqft" d = lookup "sheathing_sqft" d
  | Raise _ => True
  end.
Proof.
  split; [reflexivity|].
  exact (windowless_insulation_is_sheathing street_wall eq_refl).
Defined.

(** X4. A room's materials are returned exactly when every wall has a finite
    stud quotient, and a project's exactly when every wall of every room
    has. *)
Theorem materials_return_iff_computable :
  (forall room : Room,
    (exists d, Configurator.calculate_room_materials room = Ok d) <->
    forallb studs_computable (walls room) = true) /\
  (forall project : Project,
    (exists d, Api.calculate_project_materials project = Ok d) <->
    all_studs_computable project = true).
Proof.
  split; [exact room_materials_ok_iff|].
  intros project. unfold all_studs_computable. rewrite forallb_forall. split.
  - intros (d & Hd) room Hin.
    pose proof (accumulate_children_ok _ _ _ _ Hd) as Hall.
    rewrite Forall_forall in Hall. apply room_materials_ok_iff.
    apply (Hall room Hin).
  - intros Hall.
    apply (accumulate_total _ room_materials_shaped);
      [apply zero_totals_shaped|].
    apply Forall_forall. intros room Hin.
    apply (proj2 (room_materials_ok_iff room)). apply Hall. assumption.
Qed.

(** X5. The aggregation stops at the first wall that fails: when the walls
    before it have finite stud quotients, the room raises that wall's
    exception, whatever the later walls are. *)
Theorem room_materials_first_failure (room : Room) (before after : list Wall)
  (wall : Wall) (e : PyExc) :
  walls room = (before ++ wall :: after)%list ->
  forallb studs_computable before = true ->
  Configurator.calculate_wall_materials wall = Raise e ->
  Configurator.calculate_room_materials room = Raise e.
Proof.
  intros Hw Hb He. unfold Configurator.calculate_room_materials. rewrite Hw.
  clear Hw. generalize zero_totals_shaped. generalize zero_totals.
  induction before as [|b before IH]; intros totals Ht; cbn [app accumulate].
  - rewrite He. reflexivity.
  - cbn [forallb] in Hb. apply andb_prop in Hb as [Hb Hrest].
    destruct (calculate_wall_materials_total b Hb) as (n & _ & Eb).
    rewrite Eb. cbn [bind].
    destruct (add_into_shaped totals _ Ht
                (calculate_wall_materials_shaped b _ Eb))
      as (totals' & Eadd & Ht').
    rewrite Eadd. cbn [bind]. apply IH; assumption.
Qed.

Lemma room_materials_first_failure_witness :
  walls (room_of LIVING [north_wall; huge_wall; street_wall]) =
  ([north_wall] ++ huge_wall :: [street_wall])%list /\
  forallb studs_computable [north_wall] = true /\
  Configurator.calculate_wall_materials huge_wall = Raise OverflowError /\
  Configurator.calculate_room_materials
    (room_of LIVING [north_wall; huge_wall; street_wall]) =
  Raise OverflowError.
Proof.
  split; [reflexivity|]. split; [vm_compute; reflexivity|].
  split; [vm_compute; reflexivity|].
  apply (room_materials_first_failure
           (room_of LIVING [north_wall; huge_wall; street_wall])
           [north_wall] [street_wall] huge_wall OverflowError);
    vm_compute; reflexivity.
Defined.

(** X6. The [studs_count] of a room is the exact integer sum of the counts
    of its walls. *)
Theorem room_studs_is_exact_sum (room : Room) (d : dict) :
  Configurator.calculate_room_materials room = Ok d ->
  exists ns,
    mapM wall_studs (walls room) = Ok ns /\
    lookup "studs_count" d = Some (Py.Int (fold_right Z.add 0 ns)).
Proof. apply room_studs_sum. Qed.

Lemma room_studs_is_exact_sum_witness :
  Configurator.calculate_room_materials (room_of BEDROOM [north_wall; street_wall]) =
  Ok [ ("studs_count", Py.Int 26);
       ("stud_linear_feet", Py.Float (Py.flit 208));
       ("top_plate_lf", Py.Float (Py.flit 48));
       ("bottom_plate_lf", Py.Float (Py.flit 24));
       ("sheathing_sqft", Py.Float (Py.flit 192));
       ("drywall_sqft", Py.Float (Py.flit 192));
       ("insulation_sqft", Py.Float (Py.flit 188));
       ("gravel_cubic_yards", Py.Float (Py.fdec 12 27)) ] /\
  exists ns,
    mapM wall_studs (walls (room_of BEDROOM [north_wall; street_wall])) = Ok ns /\
    lookup "studs_count"
      [ ("studs_count", Py.Int 26);
        ("stud_linear_feet", Py.Float (Py.flit 208));
        ("top_plate_lf", Py.Float (Py.flit 48));
        ("bottom_plate_lf", Py.Float (Py.flit 24));
        ("sheathing_sqft", Py.Float (Py.flit 192));
        ("drywall_sqft", Py.Float (Py.flit 192));
        ("insulation_sqft", Py.Float (Py.flit 188));
        ("gravel_cubic_yards", Py.Float (Py.fdec 12 27)) ] =
    Some (Py.Int (fold_right Z.add 0 ns)).
Proof.
  split; [vm_compute; reflexivity|].
  apply (room_studs_is_exact_sum (room_of BEDROOM [north_wall; street_wall])).
  vm_compute. reflexivity.
Defined.

End MaterialOutcomes.

Section MaterialOrder.
Local Open Scope Z_scope.

Lemma mapM_permutation {A B : Type} (f : A -> result B) (l l' : list A) :
  Permutation l l' ->
  forall bs, mapM f l = Ok bs ->
  exists bs', mapM f l' = Ok bs' /\ Permutation bs bs'.
Proof.
  induction 1 as [|a l l' Hp IH|a b l|l l' l'' Hp1 IH1 Hp2 IH2]; intros bs;
    cbn [mapM].
  - intros [= <-]. exists []. split; [reflexivity|constructor].
  - destruct (f a) as [x|e]; [|discriminate]. cbn [bind].
    destruct (mapM f l) as [xs|e]; [|discriminate]. cbn [bind].
    intros [= <-]. destruct (IH xs eq_refl) as (xs' & -> & Hxs).
    cbn [bind]. exists (x :: xs'). split; [reflexivity|]. constructor. assumption.
  - destruct (f b) as [y|e]; [|discriminate]. cbn [bind].
    destruct (f a) as [x|e]; [|discriminate]. cbn [bind].
    destruct (mapM f l) as [xs|e]; [|discriminate]. cbn [bind].
    intros [= <-]. exists (x :: y :: xs). split; [reflexivity|]. constructor.
  - intros H. destruct (IH1 bs H) as (bs' & H' & Hp).
    destruct (IH2 bs' H') as (bs'' & H'' & Hp').
    exists bs''. split; [assumption|]. apply perm_trans with bs'; assumption.
Qed.

Lemma Zsum_permutation (ns ns' : list Z) :
  Permutation ns ns' -> fold_right Z.add 0 ns = fold_right Z.add 0 ns'.
Proof.
  induction 1; cbn [fold_right]; lia.
Qed.

Lemma forallb_permutation {A : Type} (p : A -> bool) (l l' : list A) :
  Permutation l l' -> forallb p l = true -> forallb p l' = true.
Proof.
  intros Hp. rewrite !forallb_forall. intros H x Hin. apply H.
  apply Permutation_in with l'; [apply Permutation_sym|]; assumption.
Qed.

(** X7. Reordering the walls of a room changes neither whether its materials
    are returned nor its [studs_count]. *)
Theorem room_studs_order_independent (room room' : Room) (d : dict) :
  Permutation (walls room) (walls room') ->
  Configurator.calculate_room_materials room = Ok d ->
  exists d',
    Configurator.calculate_room_materials room' = Ok d' /\
    lookup "studs_count" d' = lookup "studs_count" d.
Proof.
  intros Hp Hd.
  assert (Hc : forallb studs_computable (walls room') = true).
  { apply (forallb_permutation _ _ _ Hp).
    apply room_materials_ok_iff. eauto. }
  apply room_materials_ok_iff in Hc as (d' & Hd').
  exists d'. split; [assumption|].
  destruct (room_studs_sum room d Hd) as (ns & Ens & ->).
  destruct (room_studs_sum room' d' Hd') as (ns' & Ens' & ->).
  destruct (mapM_permutation _ _ _ Hp ns Ens) as (ns'' & E'' & Hperm).
  rewrite Ens' in E''. injection E'' as <-.
  rewrite (Zsum_permutation _ _ Hperm). reflexivity.
Qed.

Lemma room_studs_order_independent_witness :
  Permutation (walls rising_room) (walls falling_room) /\
  exists d,
    Configurator.calculate_room_materials rising_room = Ok d /\
    lookup "studs_count" d = Some (Py.Int 12) /\
    exists d',
      Configurator.calculate_room_materials falling_room = Ok d' /\
      lookup "studs_count" d' = lookup "studs_count" d.
Proof.
  assert (Hp : Permutation (walls rising_room) (walls falling_room)).
  { cbn. apply perm_trans with [short_wall 2; short_wall 1; short_wall 3];
      [apply perm_swap|].
    apply perm_trans with [short_wall 2; short_wall 3; short_wall 1];
      [apply perm_skip, perm_swap|apply perm_swap]. }
  split; [exact Hp|].
  eexists. split; [vm_compute; reflexivity|]. split; [reflexivity|].
  apply (room_studs_order_independent rising_room falling_room _ Hp).
  vm_compute. reflexivity.
Defined.

(** X8. The float totals are sums in wall order, and that order matters:
    the walls of 0.1 ft, 0.2 ft and 0.3 ft give a [bottom_plate_lf] of
    0.6000000000000001, and the same walls in reverse give 0.6. *)
Theorem float_totals_depend_on_order :
  exists (room room' : Room) (d d' : dict),
    Permutation (walls room) (walls room') /\
    Api.room_valid room = true /\
    Configurator.calculate_room_materials room = Ok d /\
    Configurator.calculate_room_materials room' = Ok d' /\
    lookup "bottom_plate_lf" d =
    Some (Py.Float (S754_finite false 5404319552844596 (-53))) /\
    lookup "bottom_plate_lf" d' = Some (Py.Float (Py.fdec 6 10)) /\
    Py.flt (Py.fdec 6 10) (S754_finite false 5404319552844596 (-53)) = true /\
    Py.repr (S754_finite false 5404319552844596 (-53)) = "0.6000000000000001".
Proof.
  exists rising_room, falling_room.
  eexists. eexists. split.
  { cbn. apply perm_trans with [short_wall 2; short_wall 1; short_wall 3];
      [apply perm_swap|].
    apply perm_trans with [short_wall 2; short_wall 3; short_wall 1];
      [apply perm_skip, perm_swap|apply perm_swap]. }
  split; [vm_compute; reflexivity|].
  split; [vm_compute; reflexivity|].
  split; [vm_compute; reflexivity|].
  vm_compute. repeat split.
Qed.

End MaterialOrder.

Section ProjectStuds.
Local Open Scope Z_scope.

Lemma lookup_dict_get (k : string) (d : dict) (v default : Py.num) :
  lookup k d = Some v -> dict_get k d default = v.
Proof.
  induction d as [|[k' v'] d IH]; cbn [lookup dict_get]; [discriminate|].
  destruct (String.eqb k k'); [intros [= <-]; reflexivity|exact IH].
Qed.

Lemma mapM_room_studs (rs : list Room) : forall parts : list dict,
  mapM Api.calculate_room_materials rs = Ok parts ->
  exists nss,
    mapM (fun room => mapM wall_studs (walls room)) rs = Ok nss /\
    map (fun p => dict_get "studs_count" p (Py.Int 0)) parts =
    map (fun ns => Py.Int (fold_right Z.add 0 ns)) nss.
Proof.
  induction rs as [|room rs IH]; intros parts; cbn [mapM].
  - intros [= <-]. exists []. split; reflexivity.
  - destruct (Api.calculate_room_materials room) as [part|e] eqn:Er;
      [|discriminate]. cbn [bind].
    destruct (mapM _ rs) as [rest|e]; [|discriminate]. cbn [bind].
    intros [= <-].
    destruct (room_studs_sum room part Er) as (ns & Ens & Hl).
    destruct (IH rest eq_refl) as (nss & Enss & Emap).
    exists (ns :: nss). rewrite Ens, Enss. cbn [bind map].
    rewrite (lookup_dict_get _ _ _ _ Hl), Emap. split; reflexivity.
Qed.

Lemma project_studs_sum (project : Project) (d : dict) :
  Api.calculate_project_materials project = Ok d ->
  exists nss,
    mapM (fun room => mapM wall_studs (walls room)) (rooms project) = Ok nss /\
    lookup "studs_count" d =
    Some (Py.Int (fold_right Z.add 0 (map (fold_right Z.add 0) nss))).
Proof.
  intros Hd.
  pose proof (accumulate_field_sums_from _ room_materials_shaped
                (rooms project) zero_totals zero_totals_shaped) as Heq.
  change (accumulate Api.calculate_room_materials (rooms project) zero_totals)
    with (Api.calculate_project_materials project) in Heq.
  rewrite Hd in Heq.
  destruct (mapM Api.calculate_room_materials (rooms project))
    as [parts|e] eqn:Eparts; [|discriminate]. cbn [bind] in Heq.
  rewrite <- field_sums_from_zero in Heq. symmetry in Heq.
  destruct (field_sums_lookup parts d Heq "studs_count") as (v & Hv & Hsum).
  { left. reflexivity. }
  destruct (mapM_room_studs _ _ Eparts) as (nss & Enss & Emap).
  exists nss. split; [assumption|].
  rewrite Emap in Hsum.
  rewrite <- (map_map (fold_right Z.add 0) Py.Int) in Hsum.
  rewrite sum_from_ints in Hsum. injection Hsum as <-.
  rewrite Hv. reflexivity.
Qed.

Lemma wall_studs_sum_bound (ws : list Wall) : forall ns : list Z,
  forallb Api.wall_valid ws = true ->
  mapM wall_studs ws = Ok ns ->
  4 * Z.of_nat (List.length ws) <= fold_right Z.add 0 ns.
Proof.
  induction ws as [|w ws IH]; intros ns Hv; cbn [mapM].
  - intros [= <-]. cbn. lia.
  - cbn [forallb] in Hv. apply andb_prop in Hv as [Hw Hws].
    destruct (wall_studs w) as [n|e] eqn:En; [|discriminate]. cbn [bind].
    destruct (mapM wall_studs ws) as [ns'|e]; [|discriminate]. cbn [bind].
    intros [= <-]. cbn [fold_right List.length].
    pose proof (wall_studs_valid w n Hw En).
    pose proof (IH ns' Hws eq_refl). lia.
Qed.

(** X9. The [studs_count] of a project is the exact integer sum over all
    walls of all rooms; for a project that meets the constraints of the data
    model it is at least four per wall, hence at least 4. *)
Theorem valid_project_studs_bound (project : Project) (d : dict) :
  Api.project_valid project = true ->
  Api.calculate_project_materials project = Ok d ->
  exists nss,
    mapM (fun room => mapM wall_studs (walls room)) (rooms project) = Ok nss /\
    lookup "studs_count" d =
    Some (Py.Int (fold_right Z.add 0 (map (fold_right Z.add 0) nss))) /\
    4 * Z.of_nat (List.length (flat_map walls (rooms project))) <=
    fold_right Z.add 0 (map (fold_right Z.add 0) nss) /\
    4 <= fold_right Z.add 0 (map (fold_right Z.add 0) nss).
Proof.
  intros Hv Hd.
  destruct (project_studs_sum project d Hd) as (nss & Enss & Hl).
  exists nss. split; [assumption|]. split; [assumption|].
  unfold Api.project_valid in Hv. apply andb_prop in Hv as [Hne Hrooms].
  assert (Hb : 4 * Z.of_nat (List.length (flat_map walls (rooms project))) <=
               fold_right Z.add 0 (map (fold_right Z.add 0) nss)).
  { clear Hne Hl Hd. revert nss Enss.
    induction (rooms project) as [|room rs IH]; intros nss; cbn [mapM].
    - intros [= <-]. cbn. lia.
    - cbn [forallb] in Hrooms. apply andb_prop in Hrooms as [Hr Hrs].
      destruct (mapM wall_studs (walls room)) as [ns|e] eqn:Ens; [|discriminate].
      cbn [bind].
      destruct (mapM _ rs) as [nss'|e]; [|discriminate]. cbn [bind].
      intros [= <-]. cbn [map fold_right flat_map]. rewrite length_app.
      unfold Api.room_valid in Hr. apply andb_prop in Hr as [_ Hws].
      pose proof (wall_studs_sum_bound _ ns Hws Ens).
      pose proof (IH Hrs nss' eq_refl). lia. }
  split; [exact Hb|].
  assert (Hlen : (1 <= List.length (flat_map walls (rooms project)))%nat).
  { destruct (rooms project) as [|room rs]; [discriminate|].
    cbn [forallb] in Hrooms. apply andb_prop in Hrooms as [Hr _].
    unfold Api.room_valid in Hr. apply andb_prop in Hr as [Hr _].
    apply andb_prop in Hr as [_ Hr].
    cbn [flat_map]. rewrite length_app.
    destruct (walls room); [discriminate|]. cbn [List.length]. lia. }
  lia.
Qed.

Lemma valid_project_studs_bound_witness :
  Api.project_valid (project_of [room_of BEDROOM [north_wall; street_wall]]) = true /\
  exists d,
    Api.calculate_project_materials
      (project_of [room_of BEDROOM [north_wall; street_wall]]) = Ok d /\
    exists nss,
      mapM (fun room => mapM wall_studs (walls room))
           (rooms (project_of [room_of BEDROOM [north_wall; street_wall]])) =
      Ok nss /\
      lookup "studs_count" d =
      Some (Py.Int (fold_right Z.add 0 (map (fold_right Z.add 0) nss))) /\
      4 * Z.of_nat (List.length
                      (flat_map walls
                         (rooms (project_of
                                   [room_of BEDROOM [north_wall; street_wall]])))) <=
      fold_right Z.add 0 (map (fold_right Z.add 0) nss) /\
      4 <= fold_right Z.add 0 (map (fold_right Z.add 0) nss).
Proof.
  split; [vm_compute; reflexivity|].
  eexists. split; [vm_compute; reflexivity|].
  apply (valid_project_studs_bound
           (project_of [room_of BEDROOM [north_wall; street_wall]]));
    vm_compute; reflexivity.
Defined.

End ProjectStuds.

Section GravelAndFloor.
Local Open Scope Z_scope.

Lemma mapM_interior_gravel (ws : list Wall) : forall parts : list dict,
  forallb (fun w => negb (is_exterior w)) ws = true ->
  mapM Configurator.calculate_wall_materials ws = Ok parts ->
  map (fun p => dict_get "gravel_cubic_yards" p (Py.Int 0)) parts =
  map (fun _ => Py.Float Py.fzero) ws.
Proof.
  induction ws as [|w ws IH]; intros parts Hint; cbn [mapM].
  - intros [= <-]. reflexivity.
  - cbn [forallb] in Hint. apply andb_prop in Hint as [Hw Hws].
    apply negb_true_iff in Hw.
    rewrite calculate_wall_materials_unfold.
    destruct (Py.int_of_float _) as [n|e]; [|discriminate]. cbn [bind].
    destruct (Py.mul_int_float _ _) as [x|e]; [|discriminate]. cbn [bind].
    destruct (mapM _ ws) as [rest|e]; [|discriminate]. cbn [bind].
    intros [= <-]. cbn [map]. rewrite (IH rest Hws eq_refl).
    f_equal. unfold wall_takeoff. rewrite Hw. reflexivity.
Qed.

Lemma sum_from_zero_floats {A : Type} (l : list A) :
  sum_from (Py.Float Py.fzero) (map (fun _ => Py.Float Py.fzero) l) =
  Ok (Py.Float Py.fzero).
Proof. induction l as [|a l IH]; [reflexivity|exact IH]. Qed.

(** X10. Interior walls contribute no foundation material: a room whose
    walls are all interior has a [gravel_cubic_yards] of 0.0 (the integer 0
    when it has no wall at all). *)
Theorem interior_room_needs_no_gravel (room : Room) (d : dict) :
  forallb (fun w => negb (is_exterior w)) (walls room) = true ->
  Configurator.calculate_room_materials room = Ok d ->
  lookup "gravel_cubic_yards" d =
  Some (match walls room with
        | [] => Py.Int 0
        | _ :: _ => Py.Float (S754_zero false)
        end).
Proof.
  intros Hint Hd.
  pose proof (accumulate_field_sums_from _ calculate_wall_materials_shaped
                (walls room) zero_totals zero_totals_shaped) as Heq.
  change (accumulate Configurator.calculate_wall_materials (walls room) zero_totals)
    with (Configurator.calculate_room_materials room) in Heq.
  rewrite Hd in Heq.
  destruct (mapM Configurator.calculate_wall_materials (walls room))
    as [parts|e] eqn:Eparts; [|discriminate]. cbn [bind] in Heq.
  rewrite <- field_sums_from_zero in Heq. symmetry in Heq.
  destruct (field_sums_lookup parts d Heq "gravel_cubic_yards") as (v & Hv & Hsum).
  { do 7 right. left. reflexivity. }
  rewrite (mapM_interior_gravel _ _ Hint Eparts) in Hsum. rewrite Hv. f_equal.
  destruct (walls room) as [|w ws].
  - cbn in Hsum. injection Hsum as <-. reflexivity.
  - cbn [map sum_from] in Hsum.
    change (Py.add (Py.Int 0) (Py.Float Py.fzero)) with (Ok (Py.Float Py.fzero))
      in Hsum.
    cbn [bind] in Hsum. rewrite sum_from_zero_floats in Hsum.
    injection Hsum as <-. reflexivity.
Qed.

Lemma interior_room_needs_no_gravel_witness :
  forallb (fun w => negb (is_exterior w))
          (walls (room_of BEDROOM [north_wall; egress_wall])) = true /\
  exists d,
    Configurator.calculate_room_materials
      (room_of BEDROOM [north_wall; egress_wall]) = Ok d /\
    lookup "gravel_cubic_yards" d = Some (Py.Float (S754_zero false)).
Proof.
  split; [reflexivity|].
  eexists. split; [vm_compute; reflexivity|].
  apply (interior_room_needs_no_gravel (room_of BEDROOM [north_wall; egress_wall]));
    vm_compute; reflexivity.
Defined.

(** X11. The floor area is 0.0 for a room of fewer than two walls; otherwise
    it is the product of the lengths of the first two walls, the same
    whichever of the two comes first and whatever walls follow. *)
Theorem floor_area_uses_first_two_walls :
  (forall (t : RoomType) (h : Py.float),
    total_floor_area_sqft
      {| room_type := t; ceiling_height_feet := h; walls := [] |} =
    S754_zero false) /\
  (forall (t : RoomType) (h : Py.float) (w : Wall),
    total_floor_area_sqft
      {| room_type := t; ceiling_height_feet := h; walls := [w] |} =
    S754_zero false) /\
  (forall (t : RoomType) (h : Py.float) (w0 w1 : Wall) (rest : list Wall),
    total_floor_area_sqft
      {| room_type := t; ceiling_height_feet := h; walls := w0 :: w1 :: rest |} =
    Py.fmul (length_feet w0) (length_feet w1) /\
    total_floor_area_sqft
      {| room_type := t; ceiling_height_feet := h; walls := w0 :: w1 :: rest |} =
    total_floor_area_sqft
      {| room_type := t; ceiling_height_feet := h; walls := [w1; w0] |}).
Proof.
  split; [reflexivity|]. split; [reflexivity|].
  intros t h w0 w1 rest. split; [reflexivity|].
  unfold total_floor_area_sqft. cbn [walls]. apply fmul_comm.
Qed.

End GravelAndFloor.

(** ** Further properties of the validator *)

Section ValidatedInput.
Local Open Scope Z_scope.

Lemma flit_144 : Py.flit 144 = S754_finite false 5066549580791808 (-45).
Proof. reflexivity. Qed.

Lemma fdec_9_10 : Py.fdec 9 10 = S754_finite false 8106479329266893 (-53).
Proof. vm_compute. reflexivity. Qed.

Lemma window_valid_clear_rounded (w : Window) :
  Api.window_valid w = true -> rounded false (clear_opening_sqft w).
Proof.
  unfold Api.window_valid. intros H.
  apply andb_prop in H as [H _]. apply andb_prop in H as [H _].
  apply andb_prop in H as [Hw Hh].
  unfold clear_opening_sqft, window_area_sqft. rewrite flit_144, fdec_9_10.
  apply fmul_rounded, fdiv_rounded, fmul_positive_rounded; assumption.
Qed.

Lemma room_valid_windows (room : Room) :
  Api.room_valid room = true ->
  Forall (fun w => Api.window_valid w = true) (get_all_windows room).
Proof.
  unfold Api.room_valid, get_all_windows. intros H.
  apply andb_prop in H as [_ H]. rewrite forallb_forall in H.
  apply Forall_forall. intros w Hin. apply in_flat_map in Hin as (wall & Hwall & Hw).
  specialize (H wall Hwall). unfold Api.wall_valid in H.
  apply andb_prop in H as [_ H]. rewrite forallb_forall in H. apply H. assumption.
Qed.

(** X12. In a room that meets the constraints of the data model no clear
    opening is NaN, so the opening the egress finding reports is the true
    maximum: it is the clear opening of one of the windows and no window has
    a larger one. *)
Theorem valid_room_largest_opening (room : Room) (w : Window) (ws : list Window) :
  Api.room_valid room = true ->
  get_all_windows room = w :: ws ->
  exists largest,
    Py.max (map clear_opening_sqft (w :: ws)) = Ok largest /\
    Py.is_nan largest = false /\
    In largest (map clear_opening_sqft (w :: ws)) /\
    forall x, In x (w :: ws) -> Py.fle (clear_opening_sqft x) largest = true.
Proof.
  intros Hv Hw.
  pose proof (room_valid_windows room Hv) as Hall. rewrite Hw in Hall.
  assert (Hnan : forallb (fun x => negb (Py.is_nan x))
                         (map clear_opening_sqft (w :: ws)) = true).
  { apply forallb_forall. intros x Hx. apply in_map_iff in Hx as (x0 & <- & Hx0).
    rewrite Forall_forall in Hall.
    rewrite (rounded_not_nan false _ (window_valid_clear_rounded x0 (Hall x0 Hx0))).
    reflexivity. }
  cbn [map Py.max]. eexists. split; [reflexivity|].
  cbn [map forallb] in Hnan. apply andb_prop in Hnan as [H1 H2].
  apply negb_true_iff in H1.
  destruct (max_loop_spec _ _ H1 H2) as (Hn & Hin & Hle).
  split; [exact Hn|]. split; [exact Hin|].
  intros x Hx. apply Hle. change (In (clear_opening_sqft x)
                                    (map clear_opening_sqft (w :: ws))).
  apply in_map. assumption.
Qed.

Lemma valid_room_largest_opening_witness :
  Api.room_valid (room_of BEDROOM [north_wall; egress_wall]) = true /\
  get_all_windows (room_of BEDROOM [north_wall; egress_wall]) =
  [window_of 24 24; window_of 36 48] /\
  exists largest,
    Py.max (map clear_opening_sqft [window_of 24 24; window_of 36 48]) =
    Ok largest /\
    Py.is_nan largest = false /\
    In largest (map clear_opening_sqft [window_of 24 24; window_of 36 48]) /\
    forall x, In x [window_of 24 24; window_of 36 48] ->
              Py.fle (clear_opening_sqft x) largest = true.
Proof.
  split; [vm_compute; reflexivity|]. split; [reflexivity|].
  exact (valid_room_largest_opening (room_of BEDROOM [north_wall; egress_wall])
           (window_of 24 24) [window_of 36 48] eq_refl eq_refl).
Defined.

Lemma validate_height_spec (v : Py.float) :
  Api.validate_height v = true <->
  Py.is_nan v = true \/
  (Py.fle (Py.flit 6) v = true /\ Py.fle v (Py.flit 20) = true).
Proof.
  unfold Api.validate_height. rewrite andb_true_iff, !negb_true_iff.
  destruct (Py.is_nan v) eqn:Hn.
  - destruct v; try discriminate. split; [auto|intros _; split; reflexivity].
  - split.
    + intros [H6 H20]. right. split.
      * apply (fgt_false_fle v (Py.flit 6)); [assumption|reflexivity|exact H6].
      * apply (fgt_false_fle (Py.flit 20) v); [reflexivity|assumption|exact H20].
    + intros [H|[H6 H20]]; [discriminate|]. split.
      * apply (fle_flt_false _ _ H6).
      * apply (fle_flt_false _ _ H20).
Qed.

(** X13. [validate_height] accepts exactly the heights from 6.0 to 20.0 and
    NaN, which no comparison rejects. *)
Theorem validate_height_accepts (v : Py.float) :
  Api.validate_height v = true <->
  Py.is_nan v = true \/
  (Py.fle (Py.flit 6) v = true /\ Py.fle v (Py.flit 20) = true).
Proof. exact (validate_height_spec v). Qed.

(** X14. A wall that meets the field constraints has a finite height between
    6.0 and 20.0: the NaN that [validate_height] lets through is stopped by
    the constraint [gt=0]. *)
Theorem valid_wall_height_bounds (wall : Wall) :
  Api.wall_valid wall = true ->
  Py.fle (Py.flit 6) (height_feet wall) = true /\
  Py.fle (height_feet wall) (Py.flit 20) = true /\
  Py.is_finite (height_feet wall) = true.
Proof.
  unfold Api.wall_valid. intros H.
  apply andb_prop in H as [H _]. apply andb_prop in H as [H _].
  apply andb_prop in H as [H Hh]. apply andb_prop in H as [_ Hpos].
  apply validate_height_spec in Hh.
  destruct (flt_not_nan _ _ Hpos) as [_ Hn].
  destruct Hh as [Hh|[H6 H20]]; [congruence|].
  split; [exact H6|]. split; [exact H20|].
  destruct (height_feet wall) as [s|[|]| |s m e]; try reflexivity; discriminate.
Qed.

Lemma valid_wall_height_bounds_witness :
  Api.wall_valid north_wall = true /\
  Py.fle (Py.flit 6) (height_feet north_wall) = true /\
  Py.fle (height_feet north_wall) (Py.flit 20) = true /\
  Py.is_finite (height_feet north_wall) = true.
Proof.
  split; [vm_compute; reflexivity|].
  exact (valid_wall_height_bounds north_wall eq_refl).
Defined.

End ValidatedInput.

Section Compliance.
Local Open Scope Z_scope.

Lemma egress_nil_iff (room : Room) :
  Configurator._check_bedroom_egress room = Ok [] <->
  exists wall w,
    In wall (walls room) /\ In w (windows wall) /\ meets_egress w = true.
Proof.
  rewrite check_bedroom_egress_spec. unfold get_all_windows.
  destruct (flat_map windows (walls room)) as [|w0 ws] eqn:E.
  - split; [discriminate|].
    intros (wall & w & Hwall & Hw & _).
    assert (Hin : In w (flat_map windows (walls room)))
      by (apply in_flat_map; eauto).
    rewrite E in Hin. contradiction.
  - rewrite <- E. destruct (existsb meets_egress _) eqn:Hex.
    + split; [intros _|reflexivity].
      apply existsb_exists in Hex as (w & Hin & Hm).
      apply in_flat_map in Hin as (wall & Hwall & Hw). eauto.
    + split; [discriminate|].
      intros (wall & w & Hwall & Hw & Hm).
      assert (Hex' : existsb meets_egress (flat_map windows (walls room)) = true).
      { apply existsb_exists. exists w. split; [|assumption].
        apply in_flat_map. eauto. }
      congruence.
Qed.

(** X15. A bedroom passes the egress check exactly when some window of some
    wall alone meets the 5.7 sq ft of clear opening, wherever that window
    is. *)
Theorem bedroom_egress_passes_iff (room : Room) :
  Configurator._check_bedroom_egress room = Ok [] <->
  exists wall w,
    In wall (walls room) /\ In w (windows wall) /\ meets_egress w = true.
Proof. exact (egress_nil_iff room). Qed.

(** X16. Adding or reordering walls never makes a passing bedroom fail the
    egress check. *)
Theorem egress_kept_by_more_walls (room room' : Room) :
  incl (walls room) (walls room') ->
  Configurator._check_bedroom_egress room = Ok [] ->
  Configurator._check_bedroom_egress room' = Ok [].
Proof.
  intros Hincl H. apply egress_nil_iff in H as (wall & w & Hwall & Hw & Hm).
  apply egress_nil_iff. exists wall, w.
  split; [apply Hincl; assumption|]. split; assumption.
Qed.

Lemma egress_kept_by_more_walls_witness :
  incl (walls (room_of BEDROOM [egress_wall]))
       (walls (room_of BEDROOM [north_wall; egress_wall])) /\
  Configurator._check_bedroom_egress (room_of BEDROOM [egress_wall]) = Ok [] /\
  Configurator._check_bedroom_egress (room_of BEDROOM [north_wall; egress_wall]) =
  Ok [].
Proof.
  assert (Hincl : incl (walls (room_of BEDROOM [egress_wall]))
                       (walls (room_of BEDROOM [north_wall; egress_wall]))).
  { intros x [<-|[]]. right. left. reflexivity. }
  split; [exact Hincl|]. split; [vm_compute; reflexivity|].
  apply (egress_kept_by_more_walls (room_of BEDROOM [egress_wall])
           (room_of BEDROOM [north_wall; egress_wall]) Hincl).
  vm_compute. reflexivity.
Defined.

Lemma thermal_loop_nil_iff (project : Project) (required : Z) (ws : list Wall) :
  forall i : Z,
  Configurator.thermal_loop project required i ws = [] <->
  forallb (fun wall => negb (below_requirement required wall)) ws = true.
Proof.
  induction ws as [|wall rest IH]; intros i;
    cbn [Configurator.thermal_loop forallb].
  - split; reflexivity.
  - unfold below_requirement at 1.
    destruct (is_exterior wall); cbn [andb negb].
    + destruct (Py.flt _ _); cbn [negb andb app].
      * split; discriminate.
      * apply IH.
    + cbn [app]. apply IH.
Qed.

Lemma validate_room_nil_iff (room : Room) (project : Project) :
  Configurator.validate_room room project = Ok [] <->
  room_compliant room project = true.
Proof.
  destruct (validate_room_unfold room project) as (egress & Eeg & ->).
  unfold room_compliant. rewrite !andb_true_iff, orb_true_iff, !negb_true_iff.
  unfold Configurator._check_thermal_envelope. rewrite requirement_get_spec.
  rewrite <- (thermal_loop_nil_iff project _ (walls room) 0).
  rewrite check_ceiling_height_spec.
  rewrite check_bedroom_egress_spec in Eeg.
  split.
  - intros [= H]. apply app_eq_nil in H as [Hc H]. apply app_eq_nil in H as [He Ht].
    split; [split|exact Ht].
    + destruct (Py.flt _ _); [discriminate|reflexivity].
    + destruct (RoomType_eqb _ _); [right|left; reflexivity].
      subst egress. destruct (get_all_windows room) as [|w ws]; [discriminate|].
      destruct (existsb meets_egress (w :: ws)); [reflexivity|discriminate].
  - intros [[Hc He] Ht]. rewrite Hc, Ht. cbn [app]. rewrite app_nil_r.
    destruct (RoomType_eqb _ _); [|reflexivity].
    destruct He as [He|He]; [discriminate|].
    destruct (get_all_windows room) as [|w ws]; [discriminate|].
    rewrite He in Eeg. injection Eeg as <-. reflexivity.
Qed.

(** X17. A room has no finding exactly when its ceiling is not below 7.0 ft,
    it is not a bedroom or has a window that meets egress, and none of its
    exterior walls is below the required R-value. *)
Theorem room_passes_iff_compliant (room : Room) (project : Project) :
  Configurator.validate_room room project = Ok [] <->
  negb (Py.flt (ceiling_height_feet room) (Py.flit 7)) &&
  (negb (RoomType_eqb (room_type room) BEDROOM) ||
   existsb meets_egress (get_all_windows room)) &&
  forallb (fun wall =>
             negb (is_exterior wall &&
                   Py.flt (total_r_value wall)
                          (Py.flit (required_r_value (climate_zone project)))))
          (walls room) = true.
Proof. apply validate_room_nil_iff. Qed.

Lemma project_loop_nil_iff (project : Project) (rs : list Room) : forall i : Z,
  Api.project_loop project i rs = Ok [] <->
  forallb (fun room => room_compliant room project) rs = true.
Proof.
  induction rs as [|room rest IH]; intros i; cbn [Api.project_loop forallb].
  - split; reflexivity.
  - destruct (validate_room_total room project) as (fs & Efs). rewrite Efs.
    cbn [bind]. rewrite andb_true_iff, <- (IH (i + 1)).
    rewrite <- validate_room_nil_iff, <- api_validate_room_eq, Efs.
    destruct (Api.project_loop project (i + 1) rest) as [all|e]; cbn [bind].
    + split.
      * intros [= H]. apply app_eq_nil in H as [H1 H2].
        apply map_eq_nil in H1. subst. split; reflexivity.
      * intros [[= ->] [= ->]]. reflexivity.
    + split; [discriminate|]. intros [_ H]. discriminate.
Qed.

(** X18. [validate_project] returns the empty list, the case the service
    reports as a pass, exactly when every room of the project has no finding
    of its own. *)
Theorem project_passes_iff_rooms_pass (project : Project) :
  Api.validate_project project = Ok [] <->
  forallb (fun room =>
             match Api.validate_room room project with
             | Ok [] => true
             | _ => false
             end)
          (rooms project) = true.
Proof.
  unfold Api.validate_project. rewrite project_loop_nil_iff.
  rewrite !forallb_forall. split; intros H room Hin; specialize (H room Hin).
  - apply validate_room_nil_iff in H. rewrite api_validate_room_eq, H. reflexivity.
  - apply validate_room_nil_iff. rewrite <- api_validate_room_eq.
    destruct (Api.validate_room room project) as [[|f fs]|e];
      [reflexivity|discriminate|discriminate].
Qed.

End Compliance.

Section FindingShape.
Local Open Scope Z_scope.

Lemma validate_room_tagged (room : Room) (project : Project)
  (findings : list Finding) :
  Configurator.validate_room room project = Ok findings ->
  Forall tagged findings.
Proof.
  destruct (validate_room_unfold room project) as (egress & Eeg & ->).
  intros [= <-]. unfold tagged.
  apply Forall_app. split.
  { rewrite check_ceiling_height_spec.
    destruct (Py.flt _ _); [|constructor].
    constructor; [|constructor]. split; [reflexivity|]. left. reflexivity. }
  apply Forall_app. split.
  { destruct (RoomType_eqb _ _); [|constructor].
    rewrite check_bedroom_egress_spec in Eeg.
    destruct (get_all_windows room) as [|w ws].
    - injection Eeg as <-. constructor; [|constructor].
      split; [reflexivity|]. right. left. reflexivity.
    - destruct (existsb _ _); injection Eeg as <-; [constructor|].
      constructor; [|constructor].
      split; [reflexivity|]. right. left. reflexivity. }
  rewrite check_thermal_envelope_spec. apply Forall_map, Forall_forall.
  intros iw _. split; [reflexivity|]. right. right. reflexivity.
Qed.

Lemma add_room_context_well_formed (i : Z) (room : Room) (f : Finding) :
  tagged f -> well_formed_finding (Api.add_room_context i room f).
Proof.
  intros [Hs Hc]. unfold well_formed_finding, Api.add_room_context, Api.room_label.
  cbn [severity code component]. split; [exact Hs|]. split; [exact Hc|].
  destruct (component f) as [[|a s]|]; cbn [append]; eauto.
Qed.

(** X19. Every finding [validate_project] returns has severity "ERROR" (no
    rule emits a warning), cites one of the three codes, and has a component
    that starts with "Room "; there are as many findings as the rooms have
    together. *)
Theorem project_findings_well_formed (project : Project) :
  exists (per_room : list (list Finding)) (findings : list Finding),
    mapM (fun room => Api.validate_room room project) (rooms project) =
    Ok per_room /\
    Api.validate_project project = Ok findings /\
    Forall well_formed_finding findings /\
    List.length findings = List.length (List.concat per_room).
Proof.
  unfold Api.validate_project. generalize 0.
  induction (rooms project) as [|room rest IH]; intros i;
    cbn [mapM Api.project_loop].
  - exists [], []. repeat split. constructor.
  - destruct (validate_room_total room project) as (fs & Efs).
    destruct (IH (i + 1)) as (per & all & Eper & Eall & Hall & Hlen).
    rewrite Efs, Eper, Eall. cbn [bind].
    eexists. eexists. split; [reflexivity|]. split; [reflexivity|].
    split.
    + apply Forall_app. split; [|exact Hall].
      apply Forall_map. rewrite api_validate_room_eq in Efs.
      pose proof (validate_room_tagged room project fs Efs) as Ht.
      rewrite Forall_forall in *. intros f Hf.
      apply add_room_context_well_formed. apply Ht. assumption.
    + cbn [List.concat]. rewrite !length_app, length_map, Hlen. reflexivity.
Qed.

Lemma thermal_loop_length (project : Project) (required : Z) (ws : list Wall) :
  forall i : Z,
  (List.length (Configurator.thermal_loop project required i ws) <=
   List.length (filter is_exterior ws))%nat.
Proof.
  induction ws as [|wall rest IH]; intros i;
    cbn [Configurator.thermal_loop filter]; [apply Nat.le_refl|].
  specialize (IH (i + 1)). rewrite length_app.
  destruct (is_exterior wall); [|exact IH].
  destruct (Py.flt _ _); cbn [List.length Nat.add]; lia.
Qed.

(** X20. A room has at most one ceiling finding, at most one egress finding
    and at most one thermal finding per exterior wall, in that order. *)
Theorem room_findings_bounded (room : Room) (project : Project) :
  exists ceiling egress thermal,
    Configurator.validate_room room project =
    Ok (ceiling ++ egress ++ thermal)%list /\
    Forall (fun f => code f = "IRC R305.1") ceiling /\
    Forall (fun f => code f = "IRC R310.1") egress /\
    Forall (fun f => code f = "IECC R402.1") thermal /\
    (List.length ceiling <= 1)%nat /\
    (List.length egress <= 1)%nat /\
    (List.length thermal <= List.length (filter is_exterior (walls room)))%nat.
Proof.
  destruct (validate_room_unfold room project) as (eg & Eeg & Ev).
  exists (Configurator._check_ceiling_height room),
         (if RoomType_eqb (room_type room) BEDROOM then eg else []),
         (Configurator._check_thermal_envelope room project).
  split; [exact Ev|]. split; [apply ceiling_codes|].
  split; [destruct (RoomType_eqb _ _); [apply (egress_codes room eg Eeg)|constructor]|].
  split; [apply thermal_codes|].
  split; [rewrite check_ceiling_height_spec; destruct (Py.flt _ _); cbn; lia|].
  split; [|apply thermal_loop_length].
  destruct (RoomType_eqb _ _); [|cbn; lia].
  rewrite check_bedroom_egress_spec in Eeg.
  destruct (get_all_windows room) as [|w ws].
  - injection Eeg as <-. cbn. lia.
  - destruct (existsb _ _); injection Eeg as <-; cbn; lia.
Qed.

(** X21. The requirement never decreases with the zone number, and a wall
    below the requirement of a zone is below that of every higher zone: a
    thermal finding is kept when the project moves to a colder zone. *)
Theorem colder_zone_keeps_thermal_finding (zone zone' : ClimateZone) (wall : Wall) :
  ClimateZone_value zone <= ClimateZone_value zone' ->
  below_requirement (required_r_value zone) wall = true ->
  required_r_value zone <= required_r_value zone' /\
  below_requirement (required_r_value zone') wall = true.
Proof.
  intros Hz Hb. unfold below_requirement in *.
  apply andb_prop in Hb as [He Hlt]. rewrite He. cbn [andb].
  destruct zone, zone'; cbn [ClimateZone_value] in Hz; try lia;
    cbn [required_r_value] in *; (split; [lia|]); try exact Hlt;
    (apply (flt_trans _ _ _ Hlt); vm_compute; reflexivity).
Qed.

Lemma colder_zone_keeps_thermal_finding_witness :
  ClimateZone_value ZONE_6 <= ClimateZone_value ZONE_7 /\
  below_requirement (required_r_value ZONE_6) street_wall = true /\
  required_r_value ZONE_6 <= required_r_value ZONE_7 /\
  below_requirement (required_r_value ZONE_7) street_wall = true.
Proof.
  split; [vm_compute; discriminate|]. split; [vm_compute; reflexivity|].
  apply (colder_zone_keeps_thermal_finding ZONE_6 ZONE_7 street_wall);
    [vm_compute; discriminate|vm_compute; reflexivity].
Defined.

Lemma in_enumerate_from {A : Type} (l : list A) : forall (n : nat) (i : Z) (a : A),
  In (i, a) (combine (map Z.of_nat (seq n (List.length l))) l) <->
  exists k, nth_error l k = Some a /\ i = Z.of_nat (n + k).
Proof.
  induction l as [|x l IH]; intros n i a; cbn [List.length seq map combine In].
  - split; [contradiction|]. intros (k & Hk & _). destruct k; discriminate.
  - rewrite (IH (S n)). split.
    + intros [[= <- <-]|(k & Hk & ->)].
      * exists 0%nat. split; [reflexivity|]. f_equal. lia.
      * exists (S k). split; [exact Hk|]. f_equal. lia.
    + intros ([|k] & Hk & ->).
      * left. cbn in Hk. injection Hk as <-. f_equal. f_equal. lia.
      * right. exists k. split; [exact Hk|]. f_equal. lia.
Qed.

(** X22. The wall number of a thermal finding points at the offending wall:
    the findings of the thermal check are exactly the findings for the walls
    at some position [k] (from 0) that are exterior and below the
    requirement, each carrying the number [k + 1]. *)
Theorem thermal_finding_points_at_wall (room : Room) (project : Project)
  (f : Finding) :
  In f (Configurator._check_thermal_envelope room project) <->
  exists (k : nat) (wall : Wall),
    nth_error (walls room) k = Some wall /\
    is_exterior wall = true /\
    Py.flt (total_r_value wall)
           (Py.flit (required_r_value (climate_zone project))) = true /\
    f = thermal_finding project (Z.of_nat (k + 1)) wall.
Proof.
  rewrite check_thermal_envelope_spec, in_map_iff. unfold enumerate1. split.
  - intros ([i wall] & <- & Hin). apply filter_In in Hin as [Hin Hb].
    apply in_enumerate_from in Hin as (k & Hk & ->).
    cbn [snd fst] in *. unfold below_requirement in Hb.
    apply andb_prop in Hb as [He Hlt].
    exists k, wall. repeat split; try assumption.
    f_equal. f_equal. lia.
  - intros (k & wall & Hk & He & Hlt & ->).
    exists (Z.of_nat (k + 1), wall). split; [reflexivity|].
    apply filter_In. split.
    + apply in_enumerate_from. exists k. split; [exact Hk|]. f_equal. lia.
    + cbn [snd]. unfold below_requirement. rewrite He, Hlt. reflexivity.
Qed.

End FindingShape.

Section Dependence.
Local Open Scope Z_scope.

Lemma project_loop_members (project : Project) (rs : list Room) :
  forall n : nat,
  exists findings,
    Api.project_loop project (Z.of_nat n) rs = Ok findings /\
    forall f,
      In f findings <->
      exists (k : nat) (room : Room) (fs : list Finding) (g : Finding),
        nth_error rs k = Some room /\
        Api.validate_room room project = Ok fs /\
        In g fs /\
        f = relabel (Z.of_nat (n + k + 1)) room g.
Proof.
  induction rs as [|room rest IH]; intros n; cbn [Api.project_loop].
  - exists []. split; [reflexivity|]. intros f. split; [contradiction|].
    intros ([|k] & ? & ? & ? & Hk & _); discriminate.
  - destruct (validate_room_total room project) as (fs & Efs).
    replace (Z.of_nat n + 1) with (Z.of_nat (S n)) by lia.
    destruct (IH (S n)) as (all & Eall & Hall).
    rewrite Efs, Eall. cbn [bind]. eexists. split; [reflexivity|].
    assert (Hcs : Forall component_set fs).
    { apply (validate_room_components room project).
      rewrite <- api_validate_room_eq. exact Efs. }
    rewrite Forall_forall in Hcs.
    intros f. rewrite in_app_iff, in_map_iff, Hall. split.
    + intros [(g & <- & Hg)|(k & room' & fs' & g & Hk & Ev & Hg & ->)].
      * exists 0%nat, room, fs, g. repeat split; try assumption.
        rewrite (add_room_context_relabel _ _ _ (Hcs g Hg)).
        f_equal. lia.
      * exists (S k), room', fs', g. repeat split; try assumption.
        f_equal. lia.
    + intros ([|k] & room' & fs' & g & Hk & Ev & Hg & ->).
      * cbn in Hk. injection Hk as <-. rewrite Efs in Ev. injection Ev as <-.
        left. exists g. split; [|assumption].
        rewrite (add_room_context_relabel _ _ _ (Hcs g Hg)).
        f_equal. lia.
      * right. exists k, room', fs', g. repeat split; try assumption.
        f_equal. lia.
Qed.

(** X23. The room number of a project finding points at the room it comes
    from: the findings of [validate_project] are exactly the findings of
    the room at some position [k] (from 0), relabelled with the number
    [k + 1] and that room's type. *)
Theorem project_finding_points_at_room (project : Project) :
  exists findings,
    Api.validate_project project = Ok findings /\
    forall f,
      In f findings <->
      exists (k : nat) (room : Room) (fs : list Finding) (g : Finding),
        nth_error (rooms project) k = Some room /\
        Api.validate_room room project = Ok fs /\
        In g fs /\
        f = relabel (Z.of_nat (k + 1)) room g.
Proof.
  exact (project_loop_members project (rooms project) 0).
Qed.

Lemma thermal_loop_zone_only (project project' : Project) (required : Z)
  (ws : list Wall) : forall i : Z,
  climate_zone project = climate_zone project' ->
  Configurator.thermal_loop project required i ws =
  Configurator.thermal_loop project' required i ws.
Proof.
  induction ws as [|wall rest IH]; intros i Hz; [reflexivity|].
  cbn [Configurator.thermal_loop]. rewrite (IH (i + 1) Hz), Hz. reflexivity.
Qed.

(** X24. The findings of a room depend on the project through its climate
    zone only: two projects in the same zone give the same findings, whatever
    their names, ZIP codes and other rooms. *)
Theorem validate_room_depends_on_zone_only (room : Room)
  (project project' : Project) :
  climate_zone project = climate_zone project' ->
  Configurator.validate_room room project =
  Configurator.validate_room room project'.
Proof.
  intros Hz. unfold Configurator.validate_room, Configurator._check_thermal_envelope.
  rewrite Hz, (thermal_loop_zone_only project project' _ _ 0 Hz). reflexivity.
Qed.

Lemma validate_room_depends_on_zone_only_witness :
  climate_zone (project_in ZONE_7 []) =
  climate_zone (project_in ZONE_7 [room_of BEDROOM [north_wall]]) /\
  Configurator.validate_room (room_of LIVING [street_wall]) (project_in ZONE_7 []) =
  Configurator.validate_room (room_of LIVING [street_wall])
    (project_in ZONE_7 [room_of BEDROOM [north_wall]]).
Proof.
  split; [reflexivity|].
  exact (validate_room_depends_on_zone_only (room_of LIVING [street_wall])
           (project_in ZONE_7 [])
           (project_in ZONE_7 [room_of BEDROOM [north_wall]]) eq_refl).
Defined.

End Dependence.
